(** * MotorOctane careers: the job application form

    A shallow embedding of [JobApplicationForm] (the two-step application
    dialog) and of the question selector [getJobSpecificQuestions] it is
    built on, followed by the properties of the question selection, of the
    step workflow, of the checkbox serialisation and of the error message
    shown when the submission fails.

    Modelling conventions.
    - JavaScript strings are [string]s; [toLowerCase] acts on the ASCII
      letters, every other character is left as it is.
    - React state ([useState]) is a record that the handlers transform; what
      a handler asks of the outside world (a mutation, a toast, closing the
      dialog) is returned as a list of [Effect]s next to the new state.
    - An exception is [None]. *)

From Stdlib Require Import String Ascii List Bool Arith ZArith Lia DecimalString.
Import ListNotations.
#[local] Set Warnings "-register-all".
Local Open Scope string_scope.
Local Open Scope list_scope.

(** ** Strings, as the source uses them *)

(** [c.toLowerCase()] for one character. *)
Definition lower_ascii (c : ascii) : ascii :=
  let n := nat_of_ascii c in
  if ((65 <=? n)%nat && (n <=? 90)%nat)%bool then ascii_of_nat (n + 32) else c.

(** [s.toLowerCase()] *)
Fixpoint toLowerCase (s : string) : string :=
  match s with
  | EmptyString => EmptyString
  | String c s' => String (lower_ascii c) (toLowerCase s')
  end.

(** [s.includes(search)] *)
Fixpoint includes (s search : string) : bool :=
  prefix search s ||
  match s with
  | EmptyString => false
  | String _ s' => includes s' search
  end.

(** [x?.toLowerCase() || ''] for a field that may be missing. *)
Definition lowered (x : option string) : string :=
  match x with
  | Some s => toLowerCase s
  | None => ""
  end.

(** ** The data model *)

Module JobOpening.
(** The fields of [JobOpening] that the form reads.  The source guards
    [department], [type] and [title] with [?.], so they may be missing. *)
Record t := mk {
  id : string;
  title : option string;
  department : option string;
  type : option string
}.
End JobOpening.

Inductive QuestionType := text | checkbox | radio | rating | textarea.

Record ScaleLabels := { label_min : string; label_max : string }.

Record Scale := { min : nat; max : nat; labels : option ScaleLabels }.

Record QuestionConfig := {
  question : string;
  type : QuestionType;
  options : option (list string);
  scale : option Scale
}.

(** Object literals of the source, by the fields they give. *)
Definition q_plain (q : string) (t : QuestionType) : QuestionConfig :=
  {| question := q; type := t; options := None; scale := None |}.

Definition q_options (q : string) (t : QuestionType) (os : list string) : QuestionConfig :=
  {| question := q; type := t; options := Some os; scale := None |}.

Definition q_rating (q : string) (lo hi : nat) (ls : option ScaleLabels) : QuestionConfig :=
  {| question := q; type := rating; options := None;
     scale := Some {| min := lo; max := hi; labels := ls |} |}.

(** ** The question sets of [getJobSpecificQuestions] *)

Definition videographerQuestions : list QuestionConfig :=
  [ q_options "Proficiency at handling DSLR Gimbal:" radio
      ["Professional"; "Limited Experience"; "No Experience"];
    q_rating "Rate yourself on your skill to setup and operate a DSLR Gimbal" 1 10 None;
    q_plain "What are the various stages in shooting a product before it goes for grading? Explain briefly." textarea;
    q_plain "Please share your work links for reference" textarea;
    q_options "Can you edit videos?" radio ["Yes"; "No"];
    q_options "Which software's can you edit on? Mention below" radio
      ["FCP X"; "Premiere Pro"; "FCP 7"; "Premiere Rush"];
    q_rating "How well can you colour grade on a scale of 1-10?" 1 10
      (Some {| label_min := "Worst"; label_max := "Best" |});
    q_rating "How well can you balance music on a scale of 1-10?" 1 10 None;
    q_rating "How well can you select music for a video on a scale of 1-10?" 1 10 None;
    q_options "Can you animate as well?" radio ["Yes"; "No"] ].

Definition contentWriterQuestions : list QuestionConfig :=
  [ q_plain "What do you enjoy the most about content writing?" text;
    q_plain "What all kind of content have you written before?" textarea;
    q_plain "How do you integrate SEO into your content?" textarea ].

Definition socialMediaQuestions : list QuestionConfig :=
  [ q_options "Will you be open to work as an intern if you don't have any experience?" radio
      ["Yes"; "No"];
    q_options "Have you done any courses on social media with certification?" radio
      ["Yes"; "No"; "Maybe"];
    q_options "Can you edit photos and videos on a phone?" checkbox ["Yes"; "No"];
    q_rating "How well do you understand Facebook & Instagram when it comes to business tools?" 1 10 None;
    q_rating "How many years of relevant experience do you have in Social Media?" 1 10 None ].

Definition mediaSalesQuestions : list QuestionConfig :=
  [ q_plain "Which companies have you worked before?" textarea;
    q_options "Have you built concepts for automotive products?" radio ["Yes"; "No"];
    q_plain "Which all car or related brands are your clientele?" textarea;
    q_rating "What is your understanding about digital and videos on a scale of 1-5?" 1 5 None ].

Definition internshipQuestions : list QuestionConfig :=
  [ q_plain "Are you currently studying?" text;
    q_plain "Can you dedicate 6 months for full time work?" text;
    q_plain "We can offer Rs 8000 stipend per month - if ok then we proceed with your application" text ].

Definition commonQuestions : list QuestionConfig :=
  [ q_plain "What interests you most about working in the automotive industry?" textarea;
    q_plain "How do you stay updated with the latest automotive trends and technologies?" textarea ].

(** The object literal [departmentQuestions], as its own properties in the
    order they are written. *)
Definition departmentQuestions : list (string * list QuestionConfig) :=
  [ ("production", commonQuestions ++
      [ q_plain "What video production tools and software are you proficient in?" textarea;
        q_plain "Describe your experience with automotive video content creation." textarea;
        q_plain "How would you handle filming in challenging automotive environments?" textarea ]);
    ("consultancy", commonQuestions ++
      [ q_plain "What's your experience with automotive consulting or advisory services?" textarea;
        q_plain "How do you approach client relationship management?" textarea;
        q_plain "Share an example of a complex automotive problem you've solved." textarea ]);
    ("backend", commonQuestions ++
      [ q_plain "What programming languages and frameworks do you specialize in?" textarea;
        q_plain "How would you design a system to handle high-traffic automotive content?" textarea;
        q_plain "Describe your experience with database optimization for media-heavy applications." textarea ]);
    ("content", commonQuestions ++
      [ q_plain "What's your writing style when it comes to automotive content?" textarea;
        q_plain "How do you research and fact-check automotive information?" textarea;
        q_plain "Share examples of automotive content you've created that performed well." textarea ]);
    ("marketing", commonQuestions ++
      [ q_plain "How would you market MotorOctane to reach more car enthusiasts?" textarea;
        q_plain "What social media strategies work best for automotive content?" textarea;
        q_plain "Describe a successful automotive marketing campaign you admire." textarea ]) ].

(** ** Property lookup on the object literal

    [departmentQuestions] is a plain object, so [departmentQuestions[key]]
    finds its own properties first and then the members it inherits from
    [Object.prototype].  The key is the lower-cased department, and of the
    names of [Object.prototype] only [constructor] and [__proto__] are
    unchanged by [toLowerCase] (see [lowered_misses_mixed_case] below), so no
    other inherited member can be named. *)

(** The values [getJobSpecificQuestions] can return: an array of questions,
    or one of the two inherited members, the function [Object] and the
    object [Object.prototype]. *)
Inductive Selected :=
| Questions (qs : list QuestionConfig)
| ObjectConstructor
| ObjectPrototype.

(** The own property [key] of an object literal. *)
Fixpoint own_property {A : Type} (o : list (string * A)) (key : string) : option A :=
  match o with
  | [] => None
  | (k, v) :: o' => if (k =? key)%string then Some v else own_property o' key
  end.

(** [o[key]]: [None] is [undefined]. *)
Definition object_get (o : list (string * list QuestionConfig)) (key : string)
  : option Selected :=
  match own_property o key with
  | Some qs => Some (Questions qs)
  | None =>
      if (key =? "constructor")%string then Some ObjectConstructor
      else if (key =? "__proto__")%string then Some ObjectPrototype
      else None
  end.

(** The names of [Object.prototype] that [toLowerCase] changes. *)
Definition Object_prototype_mixed_case : list string :=
  [ "hasOwnProperty"; "isPrototypeOf"; "propertyIsEnumerable";
    "toLocaleString"; "toString"; "valueOf";
    "__defineGetter__"; "__defineSetter__";
    "__lookupGetter__"; "__lookupSetter__" ].

(** ** The question selector *)

Definition getJobSpecificQuestions (job : JobOpening.t) : Selected :=
  let department := lowered (JobOpening.department job) in
  let jobType := lowered (JobOpening.type job) in
  let title := lowered (JobOpening.title job) in
  if includes title "videographer" || includes title "video editor" ||
     includes title "video" || includes title "editor"
  then Questions videographerQuestions
  else if includes title "content writer" || includes title "writer" ||
          (includes title "content" && includes title "writer")
  then Questions contentWriterQuestions
  else if includes title "social media" || includes title "content creation" ||
          includes title "social" || includes title "content"
  then Questions socialMediaQuestions
  else if includes title "media sales" || includes (toLowerCase title) "sales"
  then Questions mediaSalesQuestions
  else if includes jobType "internship" || includes title "internship"
  then Questions internshipQuestions
  else
    match object_get departmentQuestions department with
    | Some v => v                              (* every such value is truthy *)
    | None => Questions commonQuestions
    end.

(** The title matches one of the four role-keyword branches: the
    conditions of these branches, as they are written. *)
Definition matches_role_keyword (job : JobOpening.t) : bool :=
  let title := lowered (JobOpening.title job) in
  (includes title "videographer" || includes title "video editor" ||
   includes title "video" || includes title "editor") ||
  (includes title "content writer" || includes title "writer" ||
   (includes title "content" && includes title "writer")) ||
  (includes title "social media" || includes title "content creation" ||
   includes title "social" || includes title "content") ||
  (includes title "media sales" || includes (toLowerCase title) "sales").

(** The six keywords that decide these conditions. *)
Definition has_role_keyword (job : JobOpening.t) : bool :=
  let title := lowered (JobOpening.title job) in
  includes title "video" || includes title "editor" || includes title "writer" ||
  includes title "social" || includes title "content" || includes title "sales".

(** [isInternship] of the component. *)
Definition isInternship (job : JobOpening.t) : bool :=
  includes (lowered (JobOpening.type job)) "internship" ||
  includes (lowered (JobOpening.title job)) "internship".

(** The keys of [departmentQuestions]. *)
Definition recognized_department (department : string) : bool :=
  existsb (String.eqb department) (map fst departmentQuestions).

(** The value is one of the four curated sets of the role keywords. *)
Definition curated (v : Selected) : Prop :=
  v = Questions videographerQuestions \/ v = Questions contentWriterQuestions \/
  v = Questions socialMediaQuestions \/ v = Questions mediaSalesQuestions.

(** ** More strings: [split], [trim], [join] *)

(** [s.split(sep)] for a non-empty [sep] (the source splits on [', ']).
    [skip] counts the characters of a separator, already recognised, that
    are still to be passed over; the head of the result is the piece being
    read. *)
Fixpoint split_from (sep : string) (skip : nat) (s : string) : list string :=
  match s with
  | EmptyString => [EmptyString]
  | String c s' =>
      match skip with
      | S k => split_from sep k s'
      | O =>
          if prefix sep s then EmptyString :: split_from sep (String.length sep - 1) s'
          else match split_from sep 0 s' with
               | piece :: rest => String c piece :: rest
               | [] => [String c EmptyString]
               end
      end
  end.

Definition split (s sep : string) : list string := split_from sep 0 s.

(** White space, as [trim] sees it among the ASCII characters. *)
Definition is_white_space (c : ascii) : bool :=
  let n := nat_of_ascii c in
  ((9 <=? n)%nat && (n <=? 13)%nat) || (n =? 32)%nat.

Fixpoint trimStart (s : string) : string :=
  match s with
  | EmptyString => EmptyString
  | String c s' => if is_white_space c then trimStart s' else s
  end.

Fixpoint trimEnd (s : string) : string :=
  match s with
  | EmptyString => EmptyString
  | String c s' =>
      match trimEnd s' with
      | EmptyString => if is_white_space c then EmptyString else String c EmptyString
      | t => String c t
      end
  end.

(** [s.trim()] *)
Definition trim (s : string) : string := trimEnd (trimStart s).

(** [values.join(sep)] *)
Definition join (values : list string) (sep : string) : string := String.concat sep values.

(** [values.includes(v)] on an array of strings. *)
Definition array_includes (values : list string) (v : string) : bool :=
  existsb (String.eqb v) values.

(** ** The checkbox of a multi-select question

    The [onClick] handler of one option: [value] is [field.value], the
    result is what is passed to [field.onChange]. *)
Definition checkbox_onClick (value : option string) (option : string) : string :=
  let fieldValue := match value with Some s => s | None => "" end in
  let currentValues :=
    if (fieldValue =? "")%string then []
    else filter (fun v => negb (trim v =? "")%string) (split fieldValue ", ") in
  let newValues :=
    if array_includes currentValues option
    then filter (fun v => negb (v =? option)%string) currentValues
    else currentValues ++ [option] in
  if (0 <? List.length newValues)%nat then join newValues ", " else "".

(** The field after clicking the options of [clicks] one after the other. *)
Definition checkbox_clicks (clicks : list string) (value : option string) : option string :=
  fold_left (fun v o => Some (checkbox_onClick v o)) clicks value.

(** ** The forms and their schemas *)

(** A [File]; the form reads its name only. *)
Record File := { name : string }.

(** One issue of a failed validation: the field and the message shown
    under it. *)
Record Issue := { path : string; message : string }.

(** [BasicInfoData], which is also the type of the values of the step-1
    form ([useForm<BasicInfoData>]).  [None] is [undefined]. *)
Record BasicInfoData := {
  firstName : string;
  lastName : string;
  email : string;
  phone : string;
  cv : option File;
  canTravelToNaviMumbai : option string;
  currentSalary : option string;
  expectedSalary : option string;
  whyMotorOctane : string
}.

(** [JobSpecificData]: the record of answers, keyed by the question text,
    in insertion order. *)
Record JobSpecificData := { questions : list (string * option string) }.

(** [z.string().min(n, msg)] *)
Definition z_string_min (n : nat) (msg : string) (p : string) (v : string) : list Issue :=
  if (n <=? String.length v)%nat then [] else [ {| path := p; message := msg |} ].

(** [z.string().optional()]: a string or [undefined], nothing to check. *)
Definition z_string_optional (p : string) (v : option string) : list Issue := [].

(** [z.instanceof(File).optional()] *)
Definition z_file_optional (p : string) (v : option File) : list Issue := [].

(** [z.enum(allowed, { required_error })]; the message for a string outside
    [allowed] is zod's own. *)
Definition z_enum (allowed : list string) (required_error : string) (p : string)
  (v : option string) : list Issue :=
  match v with
  | None => [ {| path := p; message := required_error |} ]
  | Some s =>
      if array_includes allowed s then []
      else [ {| path := p; message := "Invalid enum value" |} ]
  end.

(** [z.record(check)] under the field [p]. *)
Definition z_record {A : Type} (check : string -> A -> list Issue) (p : string)
  (entries : list (string * A)) : list Issue :=
  flat_map (fun kv => check (p ++ "." ++ fst kv)%string (snd kv)) entries.

(** *** Assignment to a property of a plain object

    [acc[key] = v] on an object whose prototype is [Object.prototype] and
    whose values are strings or [undefined].  Three things can happen:
    - the key [__proto__] reaches the setter inherited from
      [Object.prototype], which ignores a value that is neither an object
      nor [null]: the object is left as it is;
    - a key the object has keeps its place and gets the new value;
    - a new key is added: after the other keys, unless it is an array
      index (the canonical decimal string of an integer below 2^32 - 1):
      the array indices come first when the keys are enumerated, in
      ascending order. *)

Definition digit_of (c : ascii) : option N :=
  let n := N_of_ascii c in
  if ((48 <=? n)%N && (n <=? 57)%N)%bool then Some (n - 48)%N else None.

Fixpoint digits_value (s : string) (acc : N) : option N :=
  match s with
  | EmptyString => Some acc
  | String c s' =>
      match digit_of c with
      | Some d => digits_value s' (10 * acc + d)%N
      | None => None
      end
  end.

(** The array index a key stands for, if it does. *)
Definition array_index (key : string) : option N :=
  match key with
  | EmptyString => None
  | String c rest =>
      if (c =? "0")%char then
        if (rest =? "")%string then Some 0%N else None
      else if (String.length key <=? 10)%nat then
        match digits_value key 0 with
        | Some n => if (n <? 4294967295)%N then Some n else None
        | None => None
        end
      else None
  end.

(** The key is a property of the object itself. *)
Definition has_own {A : Type} (acc : list (string * A)) (key : string) : bool :=
  match own_property acc key with
  | Some _ => true
  | None => false
  end.

(** A key the object has gets the value [v], where it stands. *)
Fixpoint replace_value (acc : list (string * option string)) (key : string)
  (v : option string) : list (string * option string) :=
  match acc with
  | [] => []
  | (k, w) :: acc' =>
      if (k =? key)%string then (k, v) :: acc' else (k, w) :: replace_value acc' key v
  end.

(** A new array index [i] goes before the first key that is no smaller
    array index. *)
Fixpoint insert_index (acc : list (string * option string)) (i : N) (key : string)
  (v : option string) : list (string * option string) :=
  match acc with
  | [] => [(key, v)]
  | (k, w) :: acc' =>
      match array_index k with
      | Some j =>
          if (j <? i)%N then (k, w) :: insert_index acc' i key v
          else (key, v) :: (k, w) :: acc'
      | None => (key, v) :: (k, w) :: acc'
      end
  end.

(** [acc[key] = v] *)
Definition record_set (acc : list (string * option string)) (key : string)
  (v : option string) : list (string * option string) :=
  if (key =? "__proto__")%string then acc
  else if has_own acc key then replace_value acc key v
  else
    match array_index key with
    | Some i => insert_index acc i key v
    | None => acc ++ [(key, v)]
    end.

(** A key that is added after the others by an assignment: neither
    [__proto__] nor an array index. *)
Definition ordinary_key (key : string) : bool :=
  negb (key =? "__proto__")%string &&
  match array_index key with Some _ => false | None => true end.

(** The state of one [useForm]: the values and the errors of the last
    validation. *)
Record FormState (V : Type) := { values : V; errors : list Issue }.
Arguments values {V} _.
Arguments errors {V} _.

(** [defaultValues] of the step-1 form. *)
Definition basicForm_defaultValues : BasicInfoData :=
  {| firstName := ""; lastName := ""; email := ""; phone := "";
     cv := None; canTravelToNaviMumbai := None;
     currentSalary := Some ""; expectedSalary := Some "";
     whyMotorOctane := "" |}.

(** ** The state of the component *)

Record State := {
  cvFile : option File;
  currentStep : nat;
  basicInfo : option BasicInfoData;
  basicForm : FormState BasicInfoData;
  jobSpecificForm : FormState JobSpecificData
}.

Definition setCvFile (f : option File) (s : State) : State :=
  {| cvFile := f; currentStep := currentStep s; basicInfo := basicInfo s;
     basicForm := basicForm s; jobSpecificForm := jobSpecificForm s |}.

Definition setCurrentStep (n : nat) (s : State) : State :=
  {| cvFile := cvFile s; currentStep := n; basicInfo := basicInfo s;
     basicForm := basicForm s; jobSpecificForm := jobSpecificForm s |}.

Definition setBasicInfo (b : option BasicInfoData) (s : State) : State :=
  {| cvFile := cvFile s; currentStep := currentStep s; basicInfo := b;
     basicForm := basicForm s; jobSpecificForm := jobSpecificForm s |}.

Definition setBasicForm (f : FormState BasicInfoData) (s : State) : State :=
  {| cvFile := cvFile s; currentStep := currentStep s; basicInfo := basicInfo s;
     basicForm := f; jobSpecificForm := jobSpecificForm s |}.

Definition setJobSpecificForm (f : FormState JobSpecificData) (s : State) : State :=
  {| cvFile := cvFile s; currentStep := currentStep s; basicInfo := basicInfo s;
     basicForm := basicForm s; jobSpecificForm := f |}.

(** What a handler asks of its surroundings. *)
Inductive Effect :=
| mutate (basicData : BasicInfoData) (jobSpecificData : option JobSpecificData)
| toast (title description : string) (destructive : bool)
| onOpenChange (open : bool)
| invalidateQueries (queryKey : string).

(** Which of the two forms the dialog shows:
    [currentStep === 1 ? renderStep1() : renderStep2()]. *)
Inductive Rendered := Step1 | Step2.

Definition render (s : State) : Rendered :=
  if (currentStep s =? 1)%nat then Step1 else Step2.

(** [jobSpecificQuestions.length]; [None] is [undefined].  The function
    [Object] has length 1, [Object.prototype] has no [length]. *)
Definition length_of (v : Selected) : option nat :=
  match v with
  | Questions qs => Some (List.length qs)
  | ObjectConstructor => Some 1
  | ObjectPrototype => None
  end.

(** [isStepRequired = jobSpecificQuestions.length > 0]; [undefined > 0] is
    [false]. *)
Definition isStepRequired (jobSpecificQuestions : Selected) : bool :=
  match length_of jobSpecificQuestions with
  | Some n => (0 <? n)%nat
  | None => false
  end.

(** [defaultValues] of the step-2 form: the [reduce] over the questions.
    [None]: [jobSpecificQuestions.reduce] is not a function, the render
    throws. *)
Definition jobSpecificForm_defaultValues (jobSpecificQuestions : Selected)
  : option JobSpecificData :=
  match jobSpecificQuestions with
  | Questions qs =>
      Some {| questions :=
                fold_left (fun acc q => record_set acc (question q) (Some "")) qs [] |}
  | _ => None
  end.

(** The state of a component that has just been rendered; [defaults] are
    the default values of the step-2 form. *)
Definition initial_state (defaults : JobSpecificData) : State :=
  {| cvFile := None; currentStep := 1; basicInfo := None;
     basicForm := {| values := basicForm_defaultValues; errors := [] |};
     jobSpecificForm := {| values := defaults; errors := [] |} |}.

(** The state of the component when it is first rendered for [job];
    [None] when the render throws. *)
Definition JobApplicationForm (job : JobOpening.t) : option State :=
  match jobSpecificForm_defaultValues (getJobSpecificQuestions job) with
  | Some d => Some (initial_state d)
  | None => None
  end.

(** ** JSON values, for the body of a failed response *)

Inductive json :=
| JNull
| JBool (b : bool)
| JNumber (z : Z)                      (* the integers among the numbers *)
| JString (s : string)
| JArray (items : list json)
| JObject (members : list (string * json)).

(** Whether a value counts as true in [a || b]. *)
Definition truthy (j : json) : bool :=
  match j with
  | JNull => false
  | JBool b => b
  | JNumber z => negb (z =? 0)%Z
  | JString s => negb (s =? "")%string
  | JArray _ => true
  | JObject _ => true
  end.

(** The string a value becomes inside a template literal. *)
Fixpoint json_toString (j : json) : string :=
  match j with
  | JNull => "null"
  | JBool true => "true"
  | JBool false => "false"
  | JNumber z => NilZero.string_of_int (Z.to_int z)
  | JString s => s
  | JArray items =>
      String.concat ","
        (map (fun i => match i with JNull => "" | _ => json_toString i end) items)
  | JObject _ => "[object Object]"
  end.

(** [j[key]] for a value that is not [null]; [None] is [undefined]. *)
Definition property (j : json) (key : string) : option json :=
  match j with
  | JObject members => own_property members key
  | _ => None
  end.

(** [j[key]] when it counts as true. *)
Definition truthy_property (j : json) (key : string) : option json :=
  match property j key with
  | Some v => if truthy v then Some v else None
  | None => None
  end.

(** The response of [fetch]: [body] is what [response.text()] gives, [None]
    when reading it fails. *)
Record Response := { ok : bool; status : nat; body : option string }.

(** How [mutationFn] ends: with the parsed result, or by throwing an
    [Error] with a message. *)
Inductive Outcome :=
| Resolved (result : json)
| Rejected (error_message : string).

(** The values [FormData] holds; [fd_json members] is the text
    [JSON.stringify] gives for the object with these string members. *)
Inductive FormDataValue :=
| fd_text (s : string)
| fd_file (f : File)
| fd_json (members : list (string * string)).

(** The members [JSON.stringify] keeps of a record of answers: those that
    are not [undefined]. *)
Fixpoint stringify_members (entries : list (string * option string))
  : list (string * string) :=
  match entries with
  | [] => []
  | (k, Some v) :: rest => (k, v) :: stringify_members rest
  | (k, None) :: rest => stringify_members rest
  end.

(** [if (x) formData.append(key, x)] for an optional string. *)
Definition append_if_truthy (key : string) (x : option string)
  : list (string * FormDataValue) :=
  match x with
  | Some s => if (s =? "")%string then [] else [(key, fd_text s)]
  | None => []
  end.

(** The [FormData] that [mutationFn] posts to [/api/applications]. *)
Definition formData (job : JobOpening.t) (cv_file : option File)
  (basicData : BasicInfoData) (jobSpecificData : option JobSpecificData)
  : list (string * FormDataValue) :=
  [ ("jobId", fd_text (JobOpening.id job));
    ("firstName", fd_text (firstName basicData));
    ("lastName", fd_text (lastName basicData));
    ("email", fd_text (email basicData));
    ("phone", fd_text (phone basicData)) ] ++
  match cv_file with Some f => [("cv", fd_file f)] | None => [] end ++
  [ ("canTravelToNaviMumbai",
     fd_text match canTravelToNaviMumbai basicData with
             | Some s => s
             | None => "undefined"
             end) ] ++
  append_if_truthy "currentSalary" (currentSalary basicData) ++
  append_if_truthy "expectedSalary" (expectedSalary basicData) ++
  [ ("whyMotorOctane", fd_text (whyMotorOctane basicData)) ] ++
  match jobSpecificData with
  | Some d => [("jobSpecificAnswers", fd_json (stringify_members (questions d)))]
  | None => []
  end.

(** ** The component: schemas, handlers and the mutation *)

Section Component.

(** zod's check of an e-mail address ([z.string().email]). *)
Variable isEmail : string -> bool.

(** [JSON.parse]; [None] when it throws. *)
Variable JSON_parse : string -> option json.

(** The message of the [TypeError] thrown when the body of a response is
    read a second time. *)
Variable body_used_message : string.

(** [z.string().email(msg)] *)
Definition z_string_email (msg : string) (p : string) (v : string) : list Issue :=
  if isEmail v then [] else [ {| path := p; message := msg |} ].

(** [basicInfoSchema]: the issues of the values of the step-1 form, field
    by field. *)
Definition basicInfoSchema (v : BasicInfoData) : list Issue :=
  z_string_min 1 "First name is required" "firstName" (firstName v) ++
  z_string_min 1 "Last name is required" "lastName" (lastName v) ++
  z_string_email "Invalid email address" "email" (email v) ++
  z_string_min 1 "Phone number is required" "phone" (phone v) ++
  z_file_optional "cv" (cv v) ++
  z_enum ["yes"; "no"] "Please select an option" "canTravelToNaviMumbai"
    (canTravelToNaviMumbai v) ++
  z_string_optional "currentSalary" (currentSalary v) ++
  z_string_optional "expectedSalary" (expectedSalary v) ++
  z_string_min 10 "Please provide a detailed response (minimum 10 characters)"
    "whyMotorOctane" (whyMotorOctane v).

(** [jobSpecificSchema]: the issues of the values of the step-2 form. *)
Definition jobSpecificSchema (v : JobSpecificData) : list Issue :=
  z_record z_string_optional "questions" (questions v).

(** Step 1 submission (Basic Info). *)
Definition onBasicInfoSubmit (is_step_required : bool) (data : BasicInfoData)
  (s : State) : State * list Effect :=
  let s := setBasicInfo (Some data) s in
  if negb is_step_required then (s, [mutate data None])
  else (setCurrentStep 2 s, []).

(** Step 2 submission (Job-specific questions). *)
Definition onJobSpecificSubmit (data : JobSpecificData) (s : State)
  : State * list Effect :=
  match basicInfo s with
  | None =>
      (setCurrentStep 1 s,
       [toast "Missing Information" "Please complete step 1 first." true])
  | Some basic => (s, [mutate basic (Some data)])
  end.

(** [basicForm.handleSubmit(onBasicInfoSubmit)]: the handler runs when the
    schema raises no issue; otherwise the issues become the errors of the
    form. *)
Definition basicForm_handleSubmit (is_step_required : bool) (s : State)
  : State * list Effect :=
  let v := values (basicForm s) in
  match basicInfoSchema v with
  | [] => onBasicInfoSubmit is_step_required v
            (setBasicForm {| values := v; errors := [] |} s)
  | issues => (setBasicForm {| values := v; errors := issues |} s, [])
  end.

(** [jobSpecificForm.handleSubmit(onJobSpecificSubmit)] *)
Definition jobSpecificForm_handleSubmit (s : State) : State * list Effect :=
  let v := values (jobSpecificForm s) in
  match jobSpecificSchema v with
  | [] => onJobSpecificSubmit v
            (setJobSpecificForm {| values := v; errors := [] |} s)
  | issues => (setJobSpecificForm {| values := v; errors := issues |} s, [])
  end.

(** Reset all forms and state; [defaults] are the default values of the
    step-2 form. *)
Definition resetForms (defaults : JobSpecificData) (s : State) : State :=
  {| cvFile := None; currentStep := 1; basicInfo := None;
     basicForm := {| values := basicForm_defaultValues; errors := [] |};
     jobSpecificForm := {| values := defaults; errors := [] |} |}.

(** Go back to step 1. *)
Definition goBack (s : State) : State := setCurrentStep 1 s.

Definition handleFileUpload (file : option File) (s : State) : State :=
  match file with
  | Some f => setCvFile (Some f) s
  | None => s
  end.

(** *** The fields of step 2

    The field of a question is registered under the name
    [questions.<text>], which react-hook-form reads as a path into the
    values of the form: it splits the name at its path characters and
    looks the parts up one after the other.  For a text that is not empty,
    holds none of the characters [.], [,], [[], []], [|], ['] and the
    double quote, and is not the name of a member of [Object.prototype],
    the path is the single key [<text>] of the record [questions], for
    reading and for writing.  For every other text the place of the answer
    is decided by the path parser of the library; the model gives none
    ([None]). *)

(** The characters of a name that make it a path. *)
Definition path_character (c : ascii) : bool :=
  existsb (fun n => (nat_of_ascii c =? n)%nat) [46; 44; 91; 93; 124; 39; 34].

Fixpoint has_path_character (q : string) : bool :=
  match q with
  | EmptyString => false
  | String c q' => path_character c || has_path_character q'
  end.

Definition plain_name (q : string) : bool :=
  negb (q =? "")%string &&
  negb (has_path_character q) &&
  negb (array_includes
          ("constructor" :: "__proto__" :: Object_prototype_mixed_case) q).

(** [field.value] of the field of [q]; the inner [None] is [undefined]. *)
Definition field_value (q : string) (s : State) : option (option string) :=
  if plain_name q then
    Some match own_property (questions (values (jobSpecificForm s))) q with
         | Some v => v
         | None => None
         end
  else None.

(** [field.onChange(v)] of the field of [q]. *)
Definition answer_onChange (q : string) (v : string) (s : State) : option State :=
  if plain_name q then
    Some (setJobSpecificForm
            {| values :=
                 {| questions :=
                      record_set (questions (values (jobSpecificForm s))) q (Some v) |};
               errors := errors (jobSpecificForm s) |} s)
  else None.

(** A click on the option [clicked] of the checkbox question [q]. *)
Definition checkbox_click (q : string) (clicked : string) (s : State) : option State :=
  match field_value q s with
  | Some value => answer_onChange q (checkbox_onClick value clicked) s
  | None => None
  end.

(** The details [mutationFn] reports for a response that is not ok:
    [json.details || json.error || text], or [text] when parsing or the
    property access throws. *)
Definition failure_details (text : string) : string :=
  match JSON_parse text with
  | None => text
  | Some JNull => text
  | Some j =>
      match truthy_property j "details" with
      | Some d => json_toString d
      | None =>
          match truthy_property j "error" with
          | Some e => json_toString e
          | None => text
          end
      end
  end.

(** [mutationFn], from the response of [fetch] on. *)
Definition mutationFn (response : Response) : Outcome :=
  let text := match body response with Some t => t | None => "" end in
  if negb (ok response) then
    Rejected ("Failed to submit application (HTTP " ++
              NilZero.string_of_uint (Nat.to_uint (status response)) ++ "). " ++
              failure_details text)%string
  else
    match body response with
    | Some t =>
        match JSON_parse t with
        | Some result => Resolved result
        | None => Rejected body_used_message
        end
    | None => Rejected body_used_message
    end.

(** [onSuccess] and [onError] of the mutation. *)
Definition onSuccess (defaults : JobSpecificData) (s : State) : State * list Effect :=
  (resetForms defaults s,
   [ toast "Application Submitted"
       "Your application has been successfully submitted. We'll be in touch soon!" false;
     onOpenChange false;
     invalidateQueries "/api/applications" ]).

Definition onError (error_message : string) (s : State) : State * list Effect :=
  (s, [toast "Error" error_message true]).

(** The mutation settles with [response]. *)
Definition settle (defaults : JobSpecificData) (response : Response) (s : State)
  : State * list Effect :=
  match mutationFn response with
  | Resolved _ => onSuccess defaults s
  | Rejected m => onError m s
  end.

End Component.

(** Whether the checkbox of [option] is shown as checked, given the value of
    the field. *)
Definition isChecked (value : option string) (option : string) : bool :=
  let fieldValue := match value with Some s => s | None => "" end in
  let currentValues :=
    if (fieldValue =? "")%string then []
    else filter (fun v => negb (trim v =? "")%string) (split fieldValue ", ") in
  array_includes currentValues option.

(** ** The selection of a checkbox question, as a list

    The options that are selected, in the order in which they were
    selected: a click removes the option when it is there and puts it at
    the end when it is not. *)
Definition toggle (selected : list string) (option : string) : list string :=
  if array_includes selected option
  then filter (fun v => negb (v =? option)%string) selected
  else selected ++ [option].

Definition selection_after (clicks : list string) (selected : list string) : list string :=
  fold_left toggle clicks selected.

(** An option that survives the round trip through the field: it holds no
    [', '] and is not blank. *)
Definition plain_option (o : string) : Prop :=
  includes o ", " = false /\ trim o <> "".

(** ** What the claims about step 1 and step 2 say, as propositions *)

(** Submitting step 1 in state [s] sends the application at once, and the
    dialog still shows step 1. *)
Definition step1_submits_directly (isEmail : string -> bool)
  (jobSpecificQuestions : Selected) (s : State) : Prop :=
  let r := basicForm_handleSubmit isEmail (isStepRequired jobSpecificQuestions) s in
  snd r = [mutate (values (basicForm s)) None] /\ render (fst r) = Step1.

(** Submitting step 1 in state [s] sends nothing and moves to step 2, with
    the values of step 1 kept as [basicInfo]. *)
Definition step1_moves_to_step2 (isEmail : string -> bool)
  (jobSpecificQuestions : Selected) (s : State) : Prop :=
  let r := basicForm_handleSubmit isEmail (isStepRequired jobSpecificQuestions) s in
  snd r = [] /\ render (fst r) = Step2 /\
  basicInfo (fst r) = Some (values (basicForm s)).

(** Submitting step 2 in state [s] is refused: nothing is sent and the
    dialog stays on step 2. *)
Definition step2_submission_rejected (s : State) : Prop :=
  let r := jobSpecificForm_handleSubmit s in
  snd r = [] /\ render (fst r) = Step2.

(** The answer to [q] in the step-2 form is empty. *)
Definition answer_is_empty (s : State) (q : string) : Prop :=
  own_property (questions (values (jobSpecificForm s))) q = Some (Some "").

(** ** Sample inputs *)

Definition social_media_executive : JobOpening.t :=
  JobOpening.mk "social-media-executive" (Some "Social Media Executive")
    (Some "content") (Some "Full-time").

Definition marketing_internship : JobOpening.t :=
  JobOpening.mk "marketing-internship" (Some "Marketing Internship")
    (Some "marketing") (Some "Internship").

Definition content_editor : JobOpening.t :=
  JobOpening.mk "content-editor" (Some "Content Editor")
    (Some "content") (Some "Full-time").

Definition driver_constructor : JobOpening.t :=
  JobOpening.mk "driver" (Some "Driver") (Some "constructor") (Some "Full-time").

Definition driver_proto : JobOpening.t :=
  JobOpening.mk "driver" (Some "Driver") (Some "__proto__") (Some "Full-time").

Definition driver_logistics : JobOpening.t :=
  JobOpening.mk "driver" (Some "Driver") (Some "Logistics") (Some "Full-time").

(** A stand-in for zod's e-mail check. *)
Definition sample_isEmail (s : string) : bool := includes s "@".

(** A string between two double-quote characters. *)
Definition quoted (s : string) : string :=
  (String (ascii_of_nat 34) s ++ String (ascii_of_nat 34) EmptyString)%string.

(** Two bodies of failed responses. *)
Definition body_with_details : string :=
  ("{" ++ quoted "error" ++ ":" ++ quoted "Failed to submit application" ++ "," ++
   quoted "details" ++ ":" ++ quoted "Unknown job" ++ "}")%string.

Definition body_with_error : string :=
  ("{" ++ quoted "error" ++ ":" ++ quoted "Failed to submit application" ++ "}")%string.

(** A stand-in for [JSON.parse], enough for the bodies above. *)
Definition sample_JSON_parse (s : string) : option json :=
  if (s =? body_with_details)%string
  then Some (JObject [ ("error", JString "Failed to submit application");
                       ("details", JString "Unknown job") ])
  else if (s =? body_with_error)%string
  then Some (JObject [ ("error", JString "Failed to submit application") ])
  else None.

Definition sample_basic : BasicInfoData :=
  {| firstName := "Asha"; lastName := "Rao"; email := "asha@example.com";
     phone := "+91 98765 43210"; cv := None;
     canTravelToNaviMumbai := Some "yes";
     currentSalary := Some ""; expectedSalary := Some "";
     whyMotorOctane := "I love cars and writing about them." |}.

(** The component for [job] after the values of [basic] were typed into the
    step-1 form; [None] when the component does not render. *)
Definition with_basic_values (job : JobOpening.t) (basic : BasicInfoData) : option State :=
  match JobApplicationForm job with
  | Some s => Some (setBasicForm {| values := basic; errors := [] |} s)
  | None => None
  end.

(** The step-2 answers of a fresh form: every question with the empty
    answer. *)
Definition empty_answers (qs : list QuestionConfig) : JobSpecificData :=
  {| questions := map (fun q => (question q, Some "")) qs |}.

(** The form for the marketing internship, step 1 filled in. *)
Definition marketing_internship_step1 : State :=
  setBasicForm {| values := sample_basic; errors := [] |}
    (initial_state (empty_answers internshipQuestions)).

(** The form for the social media executive: step 1 filled in, and then
    submitted. *)
Definition social_media_step1 : State :=
  setBasicForm {| values := sample_basic; errors := [] |}
    (initial_state (empty_answers socialMediaQuestions)).

Definition social_media_step2 : State :=
  setCurrentStep 2 (setBasicInfo (Some sample_basic) social_media_step1).

(** A form with no step-2 question at all, step 1 filled in. *)
Definition no_questions_step1 : State :=
  setBasicForm {| values := sample_basic; errors := [] |}
    (initial_state (empty_answers [])).

(** ** The selector, by its six keywords

    The same priority list with the longer phrases of the conditions left
    out; compared with [getJobSpecificQuestions] below. *)
Definition select_by_keywords (job : JobOpening.t) : Selected :=
  let title := lowered (JobOpening.title job) in
  if includes title "video" || includes title "editor"
  then Questions videographerQuestions
  else if includes title "writer" then Questions contentWriterQuestions
  else if includes title "social" || includes title "content"
  then Questions socialMediaQuestions
  else if includes title "sales" then Questions mediaSalesQuestions
  else if isInternship job then Questions internshipQuestions
  else
    match object_get departmentQuestions (lowered (JobOpening.department job)) with
    | Some v => v
    | None => Questions commonQuestions
    end.

(** Every array of questions the source writes down. *)
Definition all_question_sets : list (list QuestionConfig) :=
  [ videographerQuestions; contentWriterQuestions; socialMediaQuestions;
    mediaSalesQuestions; internshipQuestions; commonQuestions ] ++
  map snd departmentQuestions.

(** No string occurs twice. *)
Fixpoint distinct (l : list string) : bool :=
  match l with
  | [] => true
  | x :: l' => negb (array_includes l' x) && distinct l'
  end.

(** ** What step 2 renders for one question *)

(** The values of the buttons of a rating:
    [Array.from({ length: max - min + 1 }, (_, i) => min + i)].  A length
    below zero counts as zero, which is what the subtraction on [nat]
    gives for [max + 1 - min]. *)
Definition rating_values (sc : Scale) : list nat :=
  map (fun i => min sc + i) (seq 0 (max sc + 1 - min sc)).

(** The controls rendered inside the field of a question. *)
Inductive Control :=
| CheckboxOption (option : string)
| RadioOption (option : string)
| RatingButton (value : nat)
| AnswerTextarea.

(** [questionConfig.options?.map(...)] *)
Definition options_map {A : Type} (f : string -> A) (q : QuestionConfig) : list A :=
  match options q with
  | Some os => map f os
  | None => []
  end.

(** The four conditional blocks of the field, in their order. *)
Definition controls (q : QuestionConfig) : list Control :=
  (match type q with checkbox => options_map CheckboxOption q | _ => [] end) ++
  (match type q with radio => options_map RadioOption q | _ => [] end) ++
  (match type q, scale q with
   | rating, Some sc => map RatingButton (rating_values sc)
   | _, _ => []
   end) ++
  (match type q with textarea | text => [AnswerTextarea] | _ => [] end).

(** The label of the submit button of step 1. *)
Definition step1_button_label (isPending is_step_required : bool) : string :=
  if isPending then "Submitting..."
  else if is_step_required then "Next" else "Submit Application".

(** ** Runs of the component

    What can happen to a rendered component, one event after the other.
    The submit of a form, the answers and the Back button belong to the
    step that is on the screen; elsewhere they cannot occur and leave the
    state as it is.  A change of a field is taken at its widest: after
    [BasicChange v] or [AnswersChange v] the form holds the values [v],
    whichever they are, so that the runs below include every way in which
    react-hook-form can file what is typed or clicked. *)
Inductive Event :=
| BasicChange (v : BasicInfoData)
| FileChosen (file : option File)
| SubmitStep1
| AnswersChange (v : JobSpecificData)
| SubmitStep2
| Back
| Settled (response : Response).

Section Runs.

Variable isEmail : string -> bool.
Variable JSON_parse : string -> option json.
Variable body_used_message : string.

(** The questions of the job, and the default values of its step-2 form. *)
Variable jobSpecificQuestions : Selected.
Variable defaults : JobSpecificData.

Definition apply_event (e : Event) (s : State) : State * list Effect :=
  match e, render s with
  | BasicChange v, Step1 =>
      (setBasicForm {| values := v; errors := errors (basicForm s) |} s, [])
  | FileChosen file, Step1 => (handleFileUpload file s, [])
  | SubmitStep1, Step1 =>
      basicForm_handleSubmit isEmail (isStepRequired jobSpecificQuestions) s
  | AnswersChange v, Step2 =>
      (setJobSpecificForm {| values := v; errors := errors (jobSpecificForm s) |} s, [])
  | SubmitStep2, Step2 => jobSpecificForm_handleSubmit s
  | Back, Step2 => (goBack s, [])
  | Settled response, _ => settle JSON_parse body_used_message defaults response s
  | _, _ => (s, [])
  end.

(** The state after the events, and the effects in the order they were
    asked for. *)
Fixpoint run (events : list Event) (s : State) : State * list Effect :=
  match events with
  | [] => (s, [])
  | e :: events' =>
      let r := apply_event e s in
      let r' := run events' (fst r) in
      (fst r', snd r ++ snd r')
  end.

(** What holds of every state of a run: the step is 1 or 2, the stored
    basic info passed the schema, and step 2 is shown only with basic info
    stored. *)
Definition state_ok (s : State) : Prop :=
  (currentStep s = 1 \/ currentStep s = 2) /\
  (forall b, basicInfo s = Some b -> basicInfoSchema isEmail b = []) /\
  (currentStep s = 2 -> basicInfo s <> None).

(** What holds of every effect of a run: an application that is sent has
    basic data that passed the schema and, when the job has a second step,
    the answers of step 2; and the toast about missing information is never
    shown. *)
Definition effect_ok (e : Effect) : Prop :=
  match e with
  | mutate b d =>
      basicInfoSchema isEmail b = [] /\
      (isStepRequired jobSpecificQuestions = true -> d <> None)
  | toast t _ _ => t <> "Missing Information"
  | _ => True
  end.

End Runs.

(** ** The values that count as false

    The JSON values that [a || b] passes over, and a field that is passed
    over: one that is missing or holds such a value. *)
Definition falsy_values : list json :=
  [ JNull; JBool false; JNumber 0; JString "" ].

Definition absent_or_falsy (field : option json) : Prop :=
  field = None \/ exists x, field = Some x /\ In x falsy_values.

(** * Properties *)

(** ** Strings *)

Lemma lower_ascii_idempotent (c : ascii) :
  lower_ascii (lower_ascii c) = lower_ascii c.
Proof. destruct c as [[] [] [] [] [] [] [] []]; reflexivity. Qed.

Lemma toLowerCase_idempotent (s : string) :
  toLowerCase (toLowerCase s) = toLowerCase s.
Proof.
  induction s as [|c s IH]; simpl.
  - reflexivity.
  - now rewrite lower_ascii_idempotent, IH.
Qed.

Lemma toLowerCase_lowered (x : option string) :
  toLowerCase (lowered x) = lowered x.
Proof. destruct x; simpl; [apply toLowerCase_idempotent | reflexivity]. Qed.

(** A lower-cased field never equals a name that [toLowerCase] changes: of
    the members of [Object.prototype], only [constructor] and [__proto__]
    can be reached through [departmentQuestions[department]]. *)
Lemma lowered_misses_mixed_case (x : option string) (n : string) :
  In n Object_prototype_mixed_case -> lowered x <> n.
Proof.
  intros Hn E.
  assert (Hfix : toLowerCase n = n) by (rewrite <- E; apply toLowerCase_lowered).
  simpl in Hn.
  repeat (destruct Hn as [<- | Hn]; [discriminate Hfix |]).
  contradiction.
Qed.

(** [prefix] and [includes], by what they mean. *)
Lemma prefix_spec (a s : string) :
  prefix a s = true <-> exists q, s = (a ++ q)%string.
Proof.
  revert s; induction a as [|c a IH]; intros s.
  - split; [intros _; now exists s | intros _; destruct s; reflexivity].
  - destruct s as [|d s]; simpl.
    + split; [discriminate | intros [q Hq]; discriminate].
    + destruct (ascii_dec c d) as [->|Hcd].
      * rewrite IH. split; intros [q Hq]; exists q.
        -- now rewrite Hq.
        -- now injection Hq.
      * split; [discriminate | intros [q Hq]; injection Hq; intros _ E; now symmetry in E].
Qed.

Lemma includes_spec (s a : string) :
  includes s a = true <-> exists p q, s = (p ++ a ++ q)%string.
Proof.
  induction s as [|c s IH].
  - cbn [includes]. rewrite orb_false_r, prefix_spec. split.
    + intros [q Hq]. now exists EmptyString, q.
    + intros [p [q Hpq]]. destruct p; [now exists q | discriminate].
  - cbn [includes]. rewrite orb_true_iff, prefix_spec, IH. split.
    + intros [[q Hq] | [p [q Hpq]]].
      * now exists EmptyString, q.
      * exists (String c p), q. simpl. now rewrite Hpq.
    + intros [p [q Hpq]]. destruct p as [|d p].
      * left. now exists q.
      * right. simpl in Hpq. injection Hpq; intros E _. now exists p, q.
Qed.

Lemma string_app_assoc (a b c : string) :
  ((a ++ b) ++ c = a ++ (b ++ c))%string.
Proof. induction a as [|x a IH]; simpl; [reflexivity | now rewrite IH]. Qed.

(** A title that holds a phrase holds every part of the phrase. *)
Lemma includes_trans (s a b : string) :
  includes a b = true -> includes s a = true -> includes s b = true.
Proof.
  rewrite !includes_spec. intros [p [q ->]] [p' [q' ->]].
  exists (p' ++ p)%string, (q ++ q')%string.
  now rewrite !string_app_assoc.
Qed.

Lemma excludes_part (s a b : string) :
  includes a b = true -> includes s b = false -> includes s a = false.
Proof.
  intros Hab Hb. destruct (includes s a) eqn:E; [|reflexivity].
  now rewrite (includes_trans s a b Hab E) in Hb.
Qed.

Lemma includes_empty (s : string) : includes s "" = true.
Proof. apply includes_spec. now exists EmptyString, s. Qed.

Lemma includes_suffix (p s : string) : includes (p ++ s) s = true.
Proof.
  apply includes_spec. exists p, EmptyString.
  f_equal. induction s as [|c s IH]; simpl; [reflexivity | now rewrite <- IH].
Qed.

(** ** The question selector *)

Example videographer_branch :
  getJobSpecificQuestions
    (JobOpening.mk "1" (Some "Video Editor") (Some "production") (Some "Full-time"))
  = Questions videographerQuestions.
Proof. reflexivity. Qed.

Example content_writer_branch :
  getJobSpecificQuestions
    (JobOpening.mk "2" (Some "Content Writer") (Some "content") (Some "Full-time"))
  = Questions contentWriterQuestions.
Proof. reflexivity. Qed.

Example media_sales_branch :
  getJobSpecificQuestions
    (JobOpening.mk "3" (Some "Media Sales Manager") (Some "marketing") (Some "Full-time"))
  = Questions mediaSalesQuestions.
Proof. reflexivity. Qed.

Example department_branch :
  exists qs,
    getJobSpecificQuestions
      (JobOpening.mk "4" (Some "Automotive Consultant") (Some "Consultancy") None)
    = Questions (commonQuestions ++ qs) /\ List.length qs = 3.
Proof. eexists. split; reflexivity. Qed.

Example missing_fields_branch :
  getJobSpecificQuestions (JobOpening.mk "5" None None None) = Questions commonQuestions.
Proof. reflexivity. Qed.

(** Solves a goal about an array of questions once it is named. *)
Ltac array_of_length :=
  eexists; split; [reflexivity | simpl; lia].

(** The longer phrases of the conditions add nothing: a title matches a
    role-keyword branch exactly when it holds one of the six keywords. *)
Lemma matches_role_keyword_keywords (job : JobOpening.t) :
  matches_role_keyword job = has_role_keyword job.
Proof.
  unfold matches_role_keyword, has_role_keyword. cbv zeta.
  rewrite toLowerCase_lowered.
  set (t := lowered (JobOpening.title job)).
  destruct (includes t "video") eqn:Hvideo;
    [now rewrite !orb_true_r |
     rewrite (excludes_part t "videographer" "video" eq_refl Hvideo),
       (excludes_part t "video editor" "video" eq_refl Hvideo)].
  destruct (includes t "editor") eqn:Heditor; [reflexivity |].
  destruct (includes t "writer") eqn:Hwriter;
    [now rewrite !orb_true_r |
     rewrite (excludes_part t "content writer" "writer" eq_refl Hwriter)].
  destruct (includes t "social") eqn:Hsocial;
    [now rewrite !orb_true_r |
     rewrite (excludes_part t "social media" "social" eq_refl Hsocial)].
  destruct (includes t "content") eqn:Hcontent;
    [now rewrite !orb_true_r |
     rewrite (excludes_part t "content creation" "content" eq_refl Hcontent)].
  destruct (includes t "sales") eqn:Hsales;
    [now rewrite !orb_true_r |
     rewrite (excludes_part t "media sales" "sales" eq_refl Hsales)].
  reflexivity.
Qed.

(** A title with a role keyword gets one of the four curated sets,
    whatever the type and the department of the job. *)
Lemma role_keyword_selects (job : JobOpening.t) :
  matches_role_keyword job = true -> curated (getJobSpecificQuestions job).
Proof.
  rewrite matches_role_keyword_keywords.
  unfold has_role_keyword, getJobSpecificQuestions, curated. cbv zeta.
  rewrite toLowerCase_lowered.
  set (t := lowered (JobOpening.title job)).
  destruct (includes t "video") eqn:Hvideo;
    [rewrite !orb_true_r; simpl; auto |].
  destruct (includes t "editor") eqn:Heditor;
    [rewrite !orb_true_r; auto |].
  rewrite (excludes_part t "videographer" "video" eq_refl Hvideo).
  rewrite (excludes_part t "video editor" "video" eq_refl Hvideo).
  destruct (includes t "writer") eqn:Hwriter;
    [rewrite !orb_true_r; simpl; auto |].
  rewrite (excludes_part t "content writer" "writer" eq_refl Hwriter).
  rewrite andb_false_r.
  destruct (includes t "social") eqn:Hsocial;
    [rewrite !orb_true_r; simpl; auto |].
  destruct (includes t "content") eqn:Hcontent;
    [rewrite !orb_true_r; simpl; auto |].
  rewrite (excludes_part t "social media" "social" eq_refl Hsocial).
  rewrite (excludes_part t "content creation" "content" eq_refl Hcontent).
  destruct (includes t "sales") eqn:Hsales;
    [rewrite !orb_true_r; simpl; auto |].
  discriminate.
Qed.

(** Without a role keyword in the title, the internship test decides, and
    after it the lookup of the department. *)
Lemma no_role_keyword_selects (job : JobOpening.t) :
  matches_role_keyword job = false ->
  getJobSpecificQuestions job =
    if isInternship job then Questions internshipQuestions
    else match object_get departmentQuestions (lowered (JobOpening.department job)) with
         | Some v => v
         | None => Questions commonQuestions
         end.
Proof.
  rewrite matches_role_keyword_keywords.
  unfold has_role_keyword, getJobSpecificQuestions, isInternship. cbv zeta.
  rewrite toLowerCase_lowered.
  set (t := lowered (JobOpening.title job)).
  intros H.
  repeat (apply orb_false_elim in H; destruct H as [H ?]).
  rewrite (excludes_part t "videographer" "video"), (excludes_part t "video editor" "video"),
    (excludes_part t "content writer" "writer"),
    (excludes_part t "social media" "social"),
    (excludes_part t "content creation" "content"),
    (excludes_part t "media sales" "sales") by (reflexivity || assumption).
  repeat match goal with E : includes t _ = false |- _ => rewrite E; clear E end.
  reflexivity.
Qed.

(** The lookup of a department that is neither a key of
    [departmentQuestions] nor the name of an inherited member. *)
Lemma object_get_unrecognized (d : string) :
  recognized_department d = false ->
  d <> "constructor" -> d <> "__proto__" ->
  object_get departmentQuestions d = None.
Proof.
  unfold recognized_department, object_get. cbn [map fst departmentQuestions existsb own_property].
  intros H Hc Hp.
  repeat (apply orb_false_elim in H; destruct H as [? H]).
  repeat match goal with
         | E : (d =? ?k)%string = false |- _ =>
             rewrite String.eqb_sym in E; rewrite E; clear E
         end.
  apply String.eqb_neq in Hc, Hp. now rewrite Hc, Hp.
Qed.

(** The lookup of a department that is a key gives the two common
    questions and three more. *)
Lemma object_get_recognized (d : string) :
  recognized_department d = true ->
  exists qs, object_get departmentQuestions d = Some (Questions (commonQuestions ++ qs)) /\
             List.length qs = 3.
Proof.
  unfold recognized_department, object_get. cbn [map fst departmentQuestions existsb own_property].
  intros H.
  repeat (apply orb_true_iff in H; destruct H as [H | H];
          [apply String.eqb_eq in H; subst d; eexists; split; reflexivity |]).
  discriminate.
Qed.

(** Every job gets an array of at least two questions, unless no branch
    applies and its lower-cased department names one of the two inherited
    members of the object literal. *)
Lemma getJobSpecificQuestions_cases (job : JobOpening.t) :
  (exists qs, getJobSpecificQuestions job = Questions qs /\ 2 <= List.length qs) \/
  (matches_role_keyword job = false /\ isInternship job = false /\
   ((lowered (JobOpening.department job) = "constructor" /\
     getJobSpecificQuestions job = ObjectConstructor) \/
    (lowered (JobOpening.department job) = "__proto__" /\
     getJobSpecificQuestions job = ObjectPrototype))).
Proof.
  destruct (matches_role_keyword job) eqn:Hrole.
  - left. destruct (role_keyword_selects job Hrole) as [E | [E | [E | E]]];
      rewrite E; array_of_length.
  - rewrite (no_role_keyword_selects job Hrole).
    destruct (isInternship job) eqn:Hint.
    + left. array_of_length.
    + set (d := lowered (JobOpening.department job)).
      destruct (recognized_department d) eqn:Hrec.
      * left. destruct (object_get_recognized d Hrec) as [qs [-> Hlen]].
        eexists; split; [reflexivity |]. rewrite length_app, Hlen. simpl; lia.
      * destruct (String.eqb_spec d "constructor") as [Hc | Hc].
        { right. repeat split. left. split; [exact Hc |]. now rewrite Hc. }
        destruct (String.eqb_spec d "__proto__") as [Hp | Hp].
        { right. repeat split. right. split; [exact Hp |]. now rewrite Hp. }
        left. rewrite (object_get_unrecognized d Hrec Hc Hp).
        array_of_length.
Qed.

(** An unrecognized department that names no inherited member gets the two
    generic questions. *)
Lemma unrecognized_department_common (job : JobOpening.t) :
  matches_role_keyword job = false ->
  isInternship job = false ->
  recognized_department (lowered (JobOpening.department job)) = false ->
  lowered (JobOpening.department job) <> "constructor" ->
  lowered (JobOpening.department job) <> "__proto__" ->
  getJobSpecificQuestions job = Questions commonQuestions /\
  List.length commonQuestions = 2.
Proof.
  intros Hrole Hint Hrec Hc Hp.
  rewrite (no_role_keyword_selects job Hrole), Hint,
    (object_get_unrecognized _ Hrec Hc Hp).
  now split.
Qed.

(** An internship always gets an array of at least three questions. *)
Lemma internship_has_questions (job : JobOpening.t) :
  isInternship job = true ->
  exists qs, getJobSpecificQuestions job = Questions qs /\ 3 <= List.length qs.
Proof.
  intros Hint. destruct (matches_role_keyword job) eqn:Hrole.
  - destruct (role_keyword_selects job Hrole) as [E | [E | [E | E]]];
      rewrite E; array_of_length.
  - rewrite (no_role_keyword_selects job Hrole), Hint.
    array_of_length.
Qed.

(** C3. A job titled "Social Media Executive" in the department "content"
    gets exactly the five social-media questions, in their listed order, and
    not the set that [departmentQuestions] holds for "content": the test of
    the title comes before the lookup of the department. *)
Theorem social_media_executive_questions (id : string) (type : option string) :
  let job := JobOpening.mk id (Some "Social Media Executive") (Some "content") type in
  getJobSpecificQuestions job = Questions socialMediaQuestions /\
  map question socialMediaQuestions =
    [ "Will you be open to work as an intern if you don't have any experience?";
      "Have you done any courses on social media with certification?";
      "Can you edit photos and videos on a phone?";
      "How well do you understand Facebook & Instagram when it comes to business tools?";
      "How many years of relevant experience do you have in Social Media?" ] /\
  exists content_set,
    object_get departmentQuestions (lowered (JobOpening.department job))
      = Some (Questions content_set) /\
    getJobSpecificQuestions job <> Questions content_set.
Proof.
  cbv zeta. repeat split.
  eexists. split; [reflexivity | discriminate].
Qed.

(** C4. A job of type "Internship" titled "Marketing Internship" gets
    exactly the three internship questions (studying, six months of full
    time work, the stipend), whatever its department, so also for the
    department "marketing", whose own set is another one; and the internship
    test comes after the role keywords: a title with a role keyword never
    gets the internship set. *)
Theorem marketing_internship_questions (id : string) (department : option string) :
  let job := JobOpening.mk id (Some "Marketing Internship") department (Some "Internship") in
  getJobSpecificQuestions job = Questions internshipQuestions /\
  map question internshipQuestions =
    [ "Are you currently studying?";
      "Can you dedicate 6 months for full time work?";
      "We can offer Rs 8000 stipend per month - if ok then we proceed with your application" ] /\
  object_get departmentQuestions "marketing" <> Some (Questions internshipQuestions) /\
  (forall job', matches_role_keyword job' = true ->
                getJobSpecificQuestions job' <> Questions internshipQuestions).
Proof.
  cbv zeta. repeat split.
  - discriminate.
  - intros job' Hrole.
    destruct (role_keyword_selects job' Hrole) as [E | [E | [E | E]]];
      rewrite E; discriminate.
Qed.

Lemma marketing_internship_questions_witness :
  getJobSpecificQuestions marketing_internship = Questions internshipQuestions /\
  getJobSpecificQuestions
    (JobOpening.mk "v" (Some "Video Internship") (Some "marketing") (Some "Internship"))
    <> Questions internshipQuestions.
Proof.
  split.
  - exact (proj1 (marketing_internship_questions "marketing-internship" (Some "marketing"))).
  - apply (proj2 (proj2 (proj2 (marketing_internship_questions "x" None)))).
    reflexivity.
Defined.

(** C10. The first branch takes every job whose lower-cased title holds
    "video" or "editor", before any other branch is looked at: such a job
    gets the ten videographer and editor questions. *)
Theorem video_or_editor_title_questions (job : JobOpening.t) :
  includes (lowered (JobOpening.title job)) "video" ||
  includes (lowered (JobOpening.title job)) "editor" = true ->
  getJobSpecificQuestions job = Questions videographerQuestions /\
  List.length videographerQuestions = 10.
Proof.
  intros H. split; [| reflexivity].
  unfold getJobSpecificQuestions. cbv zeta.
  rewrite <- orb_assoc. rewrite <- orb_assoc, H, !orb_true_r.
  reflexivity.
Qed.

Lemma video_or_editor_title_questions_witness :
  JobOpening.title content_editor = Some "Content Editor" /\
  includes (lowered (JobOpening.title content_editor)) "video" = false /\
  getJobSpecificQuestions content_editor = Questions videographerQuestions /\
  List.length videographerQuestions = 10.
Proof.
  split; [reflexivity | split; [reflexivity |]].
  apply (video_or_editor_title_questions content_editor). reflexivity.
Defined.

(** C6. The job "Driver" of the department "constructor": no role keyword,
    no internship, the department is not a key of [departmentQuestions],
    and yet the result is not the two generic questions but the inherited
    member [constructor] of the object literal. *)
Theorem unrecognized_department_constructor :
  matches_role_keyword driver_constructor = false /\
  isInternship driver_constructor = false /\
  recognized_department (lowered (JobOpening.department driver_constructor)) = false /\
  getJobSpecificQuestions driver_constructor = ObjectConstructor /\
  getJobSpecificQuestions driver_constructor <> Questions commonQuestions.
Proof. repeat split. discriminate. Qed.

(** C9. The job "Driver" of the department "__proto__": the selector
    returns no array at all but [Object.prototype], [isStepRequired] is
    false, and the component throws while it renders. *)
Theorem proto_department_no_questions :
  getJobSpecificQuestions driver_proto = ObjectPrototype /\
  (forall qs, getJobSpecificQuestions driver_proto <> Questions qs) /\
  isStepRequired (getJobSpecificQuestions driver_proto) = false /\
  JobApplicationForm driver_proto = None.
Proof. repeat split. discriminate. Qed.

(** ** The checkbox: the field is the selection, joined *)

Lemma prefix_sep_extend (c : ascii) (v tail : string) :
  prefix ", " (String c v) = false ->
  prefix ", " (String c (v ++ String "," tail)) = false.
Proof.
  cbn [prefix]. destruct (ascii_dec "," c) as [_ | _]; [| reflexivity].
  destruct v as [|d v]; cbn [prefix append].
  - intros _. reflexivity.
  - destruct (ascii_dec " " d); [| reflexivity].
    destruct v; discriminate.
Qed.

Lemma includes_cons_false (c : ascii) (v a : string) :
  includes (String c v) a = false ->
  prefix a (String c v) = false /\ includes v a = false.
Proof. cbn [includes]. apply orb_false_elim. Qed.

(** Splitting gives back a piece that holds no separator, when a separator
    follows it ... *)
Lemma split_from_piece (v rest : string) :
  includes v ", " = false ->
  split_from ", " 0 (v ++ ", " ++ rest) = v :: split_from ", " 0 rest.
Proof.
  induction v as [|c v IH]; intros Hv.
  - destruct rest; reflexivity.
  - apply includes_cons_false in Hv. destruct Hv as [Hpre Hv].
    change ((String c v ++ ", " ++ rest)%string)
      with (String c (v ++ String "," (String " " rest))).
    cbn [split_from].
    rewrite (prefix_sep_extend c v _ Hpre).
    change (v ++ String "," (String " " rest))%string with (v ++ ", " ++ rest)%string.
    now rewrite (IH Hv).
Qed.

(** ... and when it is the last one. *)
Lemma split_from_last (v : string) :
  includes v ", " = false -> split_from ", " 0 v = [v].
Proof.
  induction v as [|c v IH]; intros Hv.
  - reflexivity.
  - apply includes_cons_false in Hv. destruct Hv as [Hpre Hv].
    cbn [split_from]. rewrite Hpre. now rewrite (IH Hv).
Qed.

Lemma join_cons2 (v w : string) (vs : list string) :
  join (v :: w :: vs) ", " = (v ++ ", " ++ join (w :: vs) ", ")%string.
Proof. reflexivity. Qed.

(** [split] undoes [join] on plain options. *)
Lemma split_join (vs : list string) :
  vs <> [] -> Forall plain_option vs -> split (join vs ", ") ", " = vs.
Proof.
  unfold split. induction vs as [|v vs IH]; intros Hne Hall; [contradiction |].
  inversion Hall as [| ? ? [Hv _] Hrest]; subst.
  destruct vs as [|w vs].
  - apply (split_from_last v Hv).
  - rewrite join_cons2, (split_from_piece v _ Hv).
    f_equal. apply IH; [discriminate | assumption].
Qed.

Lemma plain_option_nonempty (v : string) : plain_option v -> v <> "".
Proof. intros [_ Ht] ->. now apply Ht. Qed.

Lemma join_nonempty (vs : list string) :
  vs <> [] -> Forall plain_option vs -> join vs ", " <> "".
Proof.
  destruct vs as [|v vs]; intros Hne Hall; [contradiction |].
  inversion Hall as [| ? ? Hv _]; subst.
  apply plain_option_nonempty in Hv.
  destruct v as [|c v]; [contradiction |].
  destruct vs; discriminate.
Qed.

Lemma filter_plain (vs : list string) :
  Forall plain_option vs ->
  filter (fun v => negb (trim v =? "")%string) vs = vs.
Proof.
  induction vs as [|v vs IH]; intros Hall; [reflexivity |].
  inversion Hall as [| ? ? [_ Ht] Hrest]; subst. cbn [filter].
  apply String.eqb_neq in Ht. rewrite Ht. cbn [negb]. now rewrite (IH Hrest).
Qed.

Lemma toggle_plain (vs : list string) (o : string) :
  Forall plain_option vs -> plain_option o -> Forall plain_option (toggle vs o).
Proof.
  intros Hall Ho. unfold toggle. destruct (array_includes vs o).
  - apply Forall_forall. intros x Hx. apply filter_In in Hx.
    destruct Hx as [Hx _]. revert x Hx. now apply Forall_forall.
  - apply Forall_app. split; [assumption | now constructor].
Qed.

(** One click: the field that holds the selection [vs] holds, after a
    click on [o], the selection [toggle vs o]. *)
Lemma checkbox_onClick_join (vs : list string) (o : string) :
  Forall plain_option vs ->
  checkbox_onClick (Some (join vs ", ")) o = join (toggle vs o) ", ".
Proof.
  intros Hall. unfold checkbox_onClick.
  assert (Hcur : (if (join vs ", " =? "")%string then []
                  else filter (fun v => negb (trim v =? "")%string)
                         (split (join vs ", ") ", ")) = vs).
  { destruct vs as [|v vs]; [reflexivity |].
    assert (Hne : v :: vs <> []) by discriminate.
    pose proof (join_nonempty _ Hne Hall) as Hj.
    apply String.eqb_neq in Hj. rewrite Hj.
    rewrite (split_join _ Hne Hall). now apply filter_plain. }
  rewrite Hcur. fold (toggle vs o).
  destruct (toggle vs o); reflexivity.
Qed.

Lemma checkbox_clicks_join (clicks vs : list string) :
  Forall plain_option clicks -> Forall plain_option vs ->
  checkbox_clicks clicks (Some (join vs ", ")) =
  Some (join (selection_after clicks vs) ", ").
Proof.
  revert vs. induction clicks as [|o clicks IH]; intros vs Hclicks Hvs.
  - reflexivity.
  - inversion Hclicks as [| ? ? Ho Hrest]; subst.
    unfold checkbox_clicks, selection_after. cbn [fold_left].
    rewrite (checkbox_onClick_join vs o Hvs).
    apply IH; [assumption | now apply toggle_plain].
Qed.

(** C5 (as the code has it).  Starting from the empty field, after any
    clicks on plain options the field holds the options that are selected,
    joined by [', '], in the order in which they were selected: a click on
    a selected option takes it out, a click on another one puts it at the
    end. *)
Theorem checkbox_answer_in_click_order (clicks : list string) :
  Forall plain_option clicks ->
  checkbox_clicks clicks (Some "") = Some (join (selection_after clicks []) ", ").
Proof.
  intros Hclicks.
  exact (checkbox_clicks_join clicks [] Hclicks (Forall_nil _)).
Qed.

Lemma checkbox_answer_in_click_order_witness :
  Forall plain_option ["Yes"; "No"] /\
  checkbox_clicks ["Yes"; "No"] (Some "") = Some "Yes, No".
Proof.
  assert (H : Forall plain_option ["Yes"; "No"]).
  { repeat constructor; discriminate. }
  split; [exact H | exact (checkbox_answer_in_click_order ["Yes"; "No"] H)].
Defined.

(** Both options are selected, "No" first: the field is "No, Yes", not
    "Yes, No". *)
Lemma checkbox_no_then_yes :
  isChecked (checkbox_clicks ["No"; "Yes"] (Some "")) "Yes" = true /\
  isChecked (checkbox_clicks ["No"; "Yes"] (Some "")) "No" = true /\
  checkbox_clicks ["No"; "Yes"] (Some "") = Some "No, Yes" /\
  checkbox_clicks ["No"; "Yes"] (Some "") <> Some "Yes, No".
Proof. repeat split. discriminate. Qed.

(** The answer reaches the submission as it stands in the field. *)
Lemma checkbox_answer_is_sent :
  let q := "Can you edit photos and videos on a phone?" in
  exists s1 s2 data,
    checkbox_click q "Yes" social_media_step2 = Some s1 /\
    checkbox_click q "No" s1 = Some s2 /\
    field_value q s2 = Some (Some "Yes, No") /\
    snd (jobSpecificForm_handleSubmit s2) = [mutate sample_basic (Some data)] /\
    exists members,
      In ("jobSpecificAnswers", fd_json members)
         (formData social_media_executive (cvFile s2) sample_basic (Some data)) /\
      own_property members q = Some "Yes, No".
Proof.
  cbv zeta. do 3 eexists.
  split; [reflexivity |]. split; [reflexivity |]. split; [reflexivity |].
  split; [reflexivity |].
  eexists. split.
  - cbn. repeat (first [left; reflexivity | right]).
  - reflexivity.
Qed.

(** ** The workflow *)

(** C7. Going back puts the current step to 1, so that step 1 is shown,
    and leaves everything else as it is: the stored basic info, both forms
    with their values, and the chosen CV file. *)
Theorem goBack_changes_only_the_step (s : State) :
  currentStep (goBack s) = 1 /\
  render (goBack s) = Step1 /\
  basicInfo (goBack s) = basicInfo s /\
  basicForm (goBack s) = basicForm s /\
  jobSpecificForm (goBack s) = jobSpecificForm s /\
  cvFile (goBack s) = cvFile s.
Proof. repeat split. Qed.

(** Step 1 with valid values: the handler runs on the values of the form. *)
Lemma basicForm_handleSubmit_valid (isEmail : string -> bool) (b : bool) (s : State) :
  basicInfoSchema isEmail (values (basicForm s)) = [] ->
  basicForm_handleSubmit isEmail b s =
  onBasicInfoSubmit b (values (basicForm s))
    (setBasicForm {| values := values (basicForm s); errors := [] |} s).
Proof. intros H. unfold basicForm_handleSubmit. now rewrite H. Qed.

(** Step 1 with values the schema refuses: nothing is sent, the step stays,
    the issues are shown. *)
Lemma basicForm_handleSubmit_invalid (isEmail : string -> bool) (b : bool) (s : State) :
  basicInfoSchema isEmail (values (basicForm s)) <> [] ->
  snd (basicForm_handleSubmit isEmail b s) = [] /\
  currentStep (fst (basicForm_handleSubmit isEmail b s)) = currentStep s /\
  errors (basicForm (fst (basicForm_handleSubmit isEmail b s)))
    = basicInfoSchema isEmail (values (basicForm s)).
Proof.
  intros H. unfold basicForm_handleSubmit.
  destruct (basicInfoSchema isEmail (values (basicForm s))); [contradiction |].
  repeat split.
Qed.

(** With questions to ask, a valid step 1 leads to step 2 and sends
    nothing. *)
Lemma step_required_moves_to_step2 (isEmail : string -> bool)
  (jobSpecificQuestions : Selected) (s : State) :
  basicInfoSchema isEmail (values (basicForm s)) = [] ->
  isStepRequired jobSpecificQuestions = true ->
  step1_moves_to_step2 isEmail jobSpecificQuestions s.
Proof.
  intros Hvalid Hreq. unfold step1_moves_to_step2. cbv zeta.
  rewrite (basicForm_handleSubmit_valid isEmail _ s Hvalid), Hreq.
  repeat split.
Qed.

(** A component that renders always has a second step: the path that
    submits from step 1 is never taken. *)
Lemma rendered_component_requires_step2 (job : JobOpening.t) (s : State) :
  JobApplicationForm job = Some s ->
  isStepRequired (getJobSpecificQuestions job) = true.
Proof.
  unfold JobApplicationForm.
  destruct (getJobSpecificQuestions_cases job)
    as [[qs [E Hlen]] | [_ [_ [[_ E] | [_ E]]]]]; rewrite E.
  - intros _. unfold isStepRequired, length_of. apply Nat.ltb_lt. lia.
  - discriminate.
  - discriminate.
Qed.

(** C1 (as the code has it).  What a valid step 1 does depends on the
    question list alone: with an empty list the application is sent at
    once and step 1 stays on the screen; for an internship the list is
    never empty, nothing is sent, the values are kept and step 2 is
    shown. *)
Theorem step1_submit_follows_question_list (isEmail : string -> bool)
  (jobSpecificQuestions : Selected) (s : State) :
  basicInfoSchema isEmail (values (basicForm s)) = [] ->
  currentStep s = 1 ->
  (jobSpecificQuestions = Questions [] ->
   step1_submits_directly isEmail jobSpecificQuestions s) /\
  (forall job, isInternship job = true ->
               jobSpecificQuestions = getJobSpecificQuestions job ->
               step1_moves_to_step2 isEmail jobSpecificQuestions s).
Proof.
  intros Hvalid Hstep. split.
  - intros ->. unfold step1_submits_directly. cbv zeta.
    rewrite (basicForm_handleSubmit_valid isEmail _ s Hvalid).
    unfold onBasicInfoSubmit, render. cbn. rewrite Hstep. now split.
  - intros job Hint ->.
    apply step_required_moves_to_step2; [assumption |].
    destruct (internship_has_questions job Hint) as [qs [-> Hlen]].
    unfold isStepRequired, length_of. apply Nat.ltb_lt. lia.
Qed.

Lemma step1_submit_follows_question_list_witness :
  step1_submits_directly sample_isEmail (Questions []) no_questions_step1 /\
  step1_moves_to_step2 sample_isEmail (getJobSpecificQuestions marketing_internship)
    marketing_internship_step1.
Proof.
  split.
  - apply (proj1 (step1_submit_follows_question_list sample_isEmail (Questions [])
                    no_questions_step1 eq_refl eq_refl)).
    reflexivity.
  - apply (proj2 (step1_submit_follows_question_list sample_isEmail
                    (getJobSpecificQuestions marketing_internship)
                    marketing_internship_step1 eq_refl eq_refl)
             marketing_internship); reflexivity.
Defined.

(** The marketing internship is an internship, its step 1 is valid, and
    submitting it does not send the application: it leads to step 2. *)
Lemma internship_step1_goes_to_step2 :
  with_basic_values marketing_internship sample_basic = Some marketing_internship_step1 /\
  isInternship marketing_internship = true /\
  basicInfoSchema sample_isEmail (values (basicForm marketing_internship_step1)) = [] /\
  step1_moves_to_step2 sample_isEmail (getJobSpecificQuestions marketing_internship)
    marketing_internship_step1 /\
  ~ step1_submits_directly sample_isEmail (getJobSpecificQuestions marketing_internship)
      marketing_internship_step1.
Proof.
  repeat split. intros [H _]. discriminate H.
Qed.

(** The step-2 schema raises no issue, whatever the answers. *)
Lemma jobSpecificSchema_accepts (v : JobSpecificData) : jobSpecificSchema v = [].
Proof.
  unfold jobSpecificSchema, z_record.
  induction (questions v) as [|kv l IH]; [reflexivity | exact IH].
Qed.

(** So step 2 is never refused: once step 1 is stored, whatever stands in
    the step-2 form is sent. *)
Lemma jobSpecificForm_handleSubmit_sends (s : State) (basic : BasicInfoData) :
  basicInfo s = Some basic ->
  snd (jobSpecificForm_handleSubmit s) =
    [mutate basic (Some (values (jobSpecificForm s)))] /\
  currentStep (fst (jobSpecificForm_handleSubmit s)) = currentStep s.
Proof.
  intros Hb. unfold jobSpecificForm_handleSubmit.
  rewrite jobSpecificSchema_accepts. unfold onJobSpecificSubmit. cbn.
  now rewrite Hb.
Qed.

(** C2. The form of the social media executive right after step 1: every
    one of the five answers is empty, and submitting step 2 is not refused;
    the application is sent with the empty answers. *)
Theorem empty_answers_are_submitted :
  fst (basicForm_handleSubmit sample_isEmail
         (isStepRequired (getJobSpecificQuestions social_media_executive))
         social_media_step1) = social_media_step2 /\
  render social_media_step2 = Step2 /\
  Forall (fun q => answer_is_empty social_media_step2 (question q)) socialMediaQuestions /\
  snd (jobSpecificForm_handleSubmit social_media_step2) =
    [mutate sample_basic (Some (empty_answers socialMediaQuestions))] /\
  ~ step2_submission_rejected social_media_step2.
Proof.
  repeat split.
  - repeat constructor.
  - intros [H _]. discriminate H.
Qed.

(** ** The message of a failed submission *)

Lemma failure_details_parsed (JSON_parse : string -> option json) (text : string) (j : json) :
  JSON_parse text = Some j ->
  failure_details JSON_parse text =
    match truthy_property j "details" with
    | Some d => json_toString d
    | None =>
        match truthy_property j "error" with
        | Some e => json_toString e
        | None => text
        end
    end.
Proof.
  intros H. unfold failure_details. rewrite H.
  destruct j; reflexivity.
Qed.

Lemma truthy_property_string (j : json) (key x : string) :
  property j key = Some (JString x) ->
  truthy_property j key = if (x =? "")%string then None else Some (JString x).
Proof.
  intros H. unfold truthy_property. rewrite H. cbn.
  destruct (x =? "")%string; reflexivity.
Qed.

Lemma truthy_property_absent (j : json) (key : string) :
  property j key = None -> truthy_property j key = None.
Proof. intros H. unfold truthy_property. now rewrite H. Qed.

Lemma truthy_false_iff (x : json) : truthy x = false <-> In x falsy_values.
Proof.
  unfold falsy_values. cbn [In]. destruct x as [| b | z | x | items | members]; cbn [truthy].
  - tauto.
  - destruct b; split; try tauto; try discriminate.
    + intros [H | [H | [H | [H | []]]]]; discriminate H.
  - rewrite negb_false_iff, Z.eqb_eq. split.
    + intros ->. tauto.
    + intros [H | [H | [H | [H | []]]]]; try discriminate H. now injection H.
  - rewrite negb_false_iff, String.eqb_eq. split.
    + intros ->. tauto.
    + intros [H | [H | [H | [H | []]]]]; try discriminate H. now injection H.
  - split; [discriminate | intros [H | [H | [H | [H | []]]]]; discriminate H].
  - split; [discriminate | intros [H | [H | [H | [H | []]]]]; discriminate H].
Qed.

Lemma truthy_property_passed_over (j : json) (key : string) :
  absent_or_falsy (property j key) -> truthy_property j key = None.
Proof.
  unfold truthy_property. intros [-> | [x [-> Hx]]]; [reflexivity |].
  apply truthy_false_iff in Hx. now rewrite Hx.
Qed.

Lemma truthy_property_taken (j : json) (key : string) (x : json) :
  property j key = Some x -> ~ In x falsy_values -> truthy_property j key = Some x.
Proof.
  unfold truthy_property. intros -> Hx.
  destruct (truthy x) eqn:E; [reflexivity |].
  apply truthy_false_iff in E. now contradiction Hx.
Qed.



(** * Further properties *)

(** ** The selector as a priority list of six keywords *)

(** The selector is decided by six keywords of the title, the internship
    test and the department, in this order; the longer phrases in the
    conditions of the source never change the outcome. *)
Theorem getJobSpecificQuestions_by_keywords (job : JobOpening.t) :
  getJobSpecificQuestions job = select_by_keywords job.
Proof.
  unfold getJobSpecificQuestions, select_by_keywords, isInternship. cbv zeta.
  rewrite toLowerCase_lowered.
  set (t := lowered (JobOpening.title job)).
  destruct (includes t "video") eqn:Hvideo; [now rewrite !orb_true_r |].
  rewrite (excludes_part t "videographer" "video" eq_refl Hvideo),
    (excludes_part t "video editor" "video" eq_refl Hvideo).
  destruct (includes t "editor") eqn:Heditor; [reflexivity |].
  destruct (includes t "writer") eqn:Hwriter; [now rewrite !orb_true_r |].
  rewrite (excludes_part t "content writer" "writer" eq_refl Hwriter), andb_false_r.
  destruct (includes t "social") eqn:Hsocial; [now rewrite !orb_true_r |].
  rewrite (excludes_part t "social media" "social" eq_refl Hsocial).
  destruct (includes t "content") eqn:Hcontent; [now rewrite !orb_true_r |].
  rewrite (excludes_part t "content creation" "content" eq_refl Hcontent).
  destruct (includes t "sales") eqn:Hsales; [now rewrite !orb_true_r |].
  rewrite (excludes_part t "media sales" "sales" eq_refl Hsales).
  reflexivity.
Qed.

(** The selection looks at the lower-cased fields only: two jobs whose
    titles, types and departments differ in the case of their letters get
    the same questions, whatever their ids. *)
Theorem getJobSpecificQuestions_ignores_case (job job' : JobOpening.t) :
  lowered (JobOpening.title job) = lowered (JobOpening.title job') ->
  lowered (JobOpening.type job) = lowered (JobOpening.type job') ->
  lowered (JobOpening.department job) = lowered (JobOpening.department job') ->
  getJobSpecificQuestions job = getJobSpecificQuestions job'.
Proof.
  intros Ht Hty Hd. unfold getJobSpecificQuestions. cbv zeta.
  now rewrite Ht, Hty, Hd.
Qed.

Lemma getJobSpecificQuestions_ignores_case_witness :
  getJobSpecificQuestions
    (JobOpening.mk "a" (Some "SOCIAL MEDIA EXECUTIVE") (Some "Content") (Some "FULL-TIME"))
  = getJobSpecificQuestions social_media_executive.
Proof.
  apply getJobSpecificQuestions_ignores_case; reflexivity.
Defined.

(** A job without role keyword that is no internship and whose department
    is a key of [departmentQuestions] gets five questions: the two common
    ones first, then three of the department. *)
Theorem recognized_department_questions (job : JobOpening.t) :
  matches_role_keyword job = false ->
  isInternship job = false ->
  recognized_department (lowered (JobOpening.department job)) = true ->
  exists qs,
    getJobSpecificQuestions job = Questions (commonQuestions ++ qs) /\
    List.length qs = 3 /\
    own_property departmentQuestions (lowered (JobOpening.department job))
      = Some (commonQuestions ++ qs).
Proof.
  intros Hrole Hint Hrec.
  rewrite (no_role_keyword_selects job Hrole), Hint.
  set (d := lowered (JobOpening.department job)) in *.
  unfold recognized_department in Hrec.
  cbn [map fst departmentQuestions existsb] in Hrec.
  unfold object_get. cbn [departmentQuestions own_property].
  repeat (apply orb_true_iff in Hrec; destruct Hrec as [Hrec | Hrec];
          [apply String.eqb_eq in Hrec; rewrite Hrec;
           eexists; repeat split; reflexivity |]).
  discriminate.
Qed.

Lemma recognized_department_questions_witness :
  exists qs,
    getJobSpecificQuestions
      (JobOpening.mk "c" (Some "Automotive Consultant") (Some "Consultancy") (Some "Full-time"))
    = Questions (commonQuestions ++ qs) /\ List.length qs = 3.
Proof.
  destruct (recognized_department_questions
              (JobOpening.mk "c" (Some "Automotive Consultant") (Some "Consultancy")
                 (Some "Full-time")) eq_refl eq_refl eq_refl) as [qs [H1 [H2 _]]].
  exists qs. split; assumption.
Defined.

Lemma unrecognized_department_common_witness :
  getJobSpecificQuestions driver_logistics = Questions commonQuestions /\
  List.length commonQuestions = 2.
Proof.
  apply (unrecognized_department_common driver_logistics eq_refl eq_refl eq_refl).
  - discriminate.
  - discriminate.
Defined.

(** ** The question sets *)

(** Whenever the selector returns an array, it is one of the eleven arrays
    the source writes down. *)
Lemma selected_from_all_question_sets (job : JobOpening.t) (qs : list QuestionConfig) :
  getJobSpecificQuestions job = Questions qs -> In qs all_question_sets.
Proof.
  destruct (matches_role_keyword job) eqn:Hrole.
  - destruct (role_keyword_selects job Hrole) as [E | [E | [E | E]]];
      rewrite E; intros H; injection H as <-; cbn; tauto.
  - rewrite (no_role_keyword_selects job Hrole).
    destruct (isInternship job); [intros H; injection H as <-; cbn; tauto |].
    unfold object_get. cbn [departmentQuestions own_property].
    repeat match goal with
           | |- context [if ?c then _ else _] =>
               destruct c; [intros E; try discriminate E; injection E as <-; cbn; tauto |]
           end.
    intros E; injection E as <-; cbn; tauto.
Qed.

Lemma array_includes_In (l : list string) (x : string) :
  array_includes l x = true <-> In x l.
Proof.
  unfold array_includes. rewrite existsb_exists. split.
  - intros [y [Hy E]]. apply String.eqb_eq in E. now subst.
  - intros H. exists x. split; [assumption | apply String.eqb_refl].
Qed.

Lemma distinct_NoDup (l : list string) : distinct l = true -> NoDup l.
Proof.
  induction l as [|x l IH]; cbn [distinct]; intros H; constructor.
  - apply andb_prop in H. destruct H as [H _].
    intros Hin. apply array_includes_In in Hin. now rewrite Hin in H.
  - apply IH. now apply andb_prop in H.
Qed.

(** Whatever the job, no two of its questions have the same text: in the
    record of answers, which is keyed by the text, every question has a
    place of its own. *)
Theorem question_texts_distinct (job : JobOpening.t) (qs : list QuestionConfig) :
  getJobSpecificQuestions job = Questions qs -> NoDup (map question qs).
Proof.
  intros H. apply selected_from_all_question_sets in H.
  apply distinct_NoDup.
  assert (Hall : forallb (fun l => distinct (map question l)) all_question_sets = true)
    by reflexivity.
  rewrite forallb_forall in Hall. now apply Hall.
Qed.

Lemma question_texts_distinct_witness :
  NoDup (map question videographerQuestions).
Proof.
  apply (question_texts_distinct content_editor). reflexivity.
Defined.

(** ** What step 2 renders *)

(** The buttons of a rating show the numbers from [min] to [max], each
    once and in ascending order; with [max] below [min] there is none. *)
Theorem rating_values_range (sc : Scale) :
  rating_values sc = seq (min sc) (max sc + 1 - min sc) /\
  (forall v, In v (rating_values sc) <-> min sc <= v <= max sc) /\
  NoDup (rating_values sc).
Proof.
  assert (E : rating_values sc = seq (min sc) (max sc + 1 - min sc)).
  { unfold rating_values. generalize (max sc + 1 - min sc) as n. intros n.
    generalize (min sc) as m. intros m.
    replace (seq m n) with (seq (m + 0) n) by (f_equal; lia).
    generalize 0 as k. induction n as [|n IH]; intros k; cbn [seq map].
    - reflexivity.
    - f_equal. rewrite IH. f_equal. lia. }
  rewrite E. split; [reflexivity | split].
  - intros v. rewrite in_seq. lia.
  - apply seq_NoDup.
Qed.

(** Whatever the job, every one of its questions is rendered with at
    least one control: a checkbox or radio question has options, a rating
    has a scale with a value on it, the others get a text area. *)
Theorem every_question_has_a_control (job : JobOpening.t) (qs : list QuestionConfig) :
  getJobSpecificQuestions job = Questions qs ->
  Forall (fun q => controls q <> []) qs.
Proof.
  intros H. apply selected_from_all_question_sets in H.
  assert (Hall : forallb (fun l => forallb (fun q => (0 <? List.length (controls q))%nat) l)
                   all_question_sets = true) by reflexivity.
  rewrite forallb_forall in Hall. specialize (Hall qs H).
  rewrite forallb_forall in Hall.
  apply Forall_forall. intros q Hq Hnil.
  specialize (Hall q Hq). rewrite Hnil in Hall. discriminate.
Qed.

Lemma every_question_has_a_control_witness :
  Forall (fun q => controls q <> []) socialMediaQuestions.
Proof.
  apply (every_question_has_a_control social_media_executive). reflexivity.
Defined.

(** ** Records of answers *)

Lemma own_property_app {A : Type} (acc acc' : list (string * A)) (k : string) :
  own_property (acc ++ acc') k =
  match own_property acc k with
  | Some v => Some v
  | None => own_property acc' k
  end.
Proof.
  induction acc as [|[k0 w] acc IH]; [reflexivity |].
  cbn [app own_property]. now destruct (k0 =? k)%string.
Qed.

Lemma own_property_replace_value (acc : list (string * option string))
  (k k' : string) (v : option string) :
  own_property (replace_value acc k v) k' =
  if (k =? k')%string
  then match own_property acc k with Some _ => Some v | None => None end
  else own_property acc k'.
Proof.
  induction acc as [|[k0 w] acc IH]; cbn [replace_value own_property].
  - now destruct (k =? k')%string.
  - destruct (String.eqb_spec k0 k) as [-> | Hne]; cbn [own_property].
    + destruct (k =? k')%string; reflexivity.
    + rewrite IH. destruct (String.eqb_spec k k') as [<- | Hkk'].
      * apply String.eqb_neq in Hne. now rewrite Hne.
      * reflexivity.
Qed.

Lemma own_property_insert_index (acc : list (string * option string)) (i : N)
  (k k' : string) (v : option string) :
  own_property acc k = None ->
  own_property (insert_index acc i k v) k' =
  if (k =? k')%string then Some v else own_property acc k'.
Proof.
  induction acc as [|[k0 w] acc IH]; cbn [insert_index own_property]; intros Hnone.
  - reflexivity.
  - destruct (String.eqb_spec k0 k) as [-> | Hne]; [discriminate |].
    assert (Hhere : own_property ((k, v) :: (k0, w) :: acc) k' =
                    if (k =? k')%string then Some v
                    else if (k0 =? k')%string then Some w else own_property acc k')
      by reflexivity.
    destruct (array_index k0) as [j |]; [destruct (j <? i)%N |]; try exact Hhere.
    cbn [own_property]. rewrite (IH Hnone).
    destruct (String.eqb_spec k k') as [<- | Hkk'].
    + apply String.eqb_neq in Hne. now rewrite Hne.
    + reflexivity.
Qed.

(** Reading after writing: the key that was written holds the value,
    unless it is [__proto__], which is never written; every other key is
    as before. *)
Lemma own_property_record_set (acc : list (string * option string)) (k k' : string)
  (v : option string) :
  own_property (record_set acc k v) k' =
  if ((k =? k') && negb (k =? "__proto__"))%string then Some v
  else own_property acc k'.
Proof.
  unfold record_set, has_own.
  destruct (k =? "__proto__")%string; [now rewrite andb_false_r |].
  rewrite andb_true_r.
  destruct (own_property acc k) as [w |] eqn:Hown.
  - rewrite own_property_replace_value, Hown. reflexivity.
  - destruct (array_index k) as [i |].
    + now apply own_property_insert_index.
    + rewrite own_property_app, (String.eqb_sym k k'). cbn [own_property].
      rewrite (String.eqb_sym k' k).
      destruct (String.eqb_spec k k') as [<- | Hkk'].
      * now rewrite Hown.
      * now destruct (own_property acc k').
Qed.

Lemma own_property_absent {A : Type} (acc : list (string * A)) (k : string) :
  ~ In k (map fst acc) -> own_property acc k = None.
Proof.
  induction acc as [|[k0 w] acc IH]; [reflexivity |].
  cbn [map fst In own_property]. intros Hnot.
  destruct (String.eqb_spec k0 k) as [E | _]; [now contradiction Hnot; left |].
  apply IH. tauto.
Qed.

(** A new ordinary key goes to the end. *)
Lemma record_set_new_key (acc : list (string * option string)) (k : string)
  (v : option string) :
  ordinary_key k = true -> ~ In k (map fst acc) ->
  record_set acc k v = acc ++ [(k, v)].
Proof.
  unfold ordinary_key, record_set, has_own. intros Hord Hnot.
  apply andb_prop in Hord. destruct Hord as [Hproto Hindex].
  apply negb_true_iff in Hproto. rewrite Hproto.
  rewrite (own_property_absent acc k Hnot).
  now destruct (array_index k).
Qed.

(** The [reduce] that builds the default answers, from any start. *)
Lemma defaults_fold_lookup (qs : list QuestionConfig) (acc : list (string * option string))
  (k : string) :
  own_property
    (fold_left (fun acc q => record_set acc (question q) (Some "")) qs acc) k =
  if array_includes (map question qs) k && negb (k =? "__proto__")%string
  then Some (Some "") else own_property acc k.
Proof.
  revert acc. induction qs as [|q qs IH]; intros acc; [reflexivity |].
  cbn [fold_left map]. rewrite IH, own_property_record_set.
  unfold array_includes. cbn [existsb].
  rewrite (String.eqb_sym k (question q)).
  destruct (String.eqb_spec (question q) k) as [-> | Hne]; cbn [orb andb].
  - destruct (existsb (String.eqb k) (map question qs)); cbn [andb];
      destruct (k =? "__proto__")%string; reflexivity.
  - reflexivity.
Qed.

Lemma defaults_fold_distinct (qs : list QuestionConfig) (acc : list (string * option string)) :
  NoDup (map fst acc ++ map question qs) ->
  forallb ordinary_key (map question qs) = true ->
  fold_left (fun acc q => record_set acc (question q) (Some "")) qs acc =
  acc ++ map (fun q => (question q, Some "")) qs.
Proof.
  revert acc. induction qs as [|q qs IH]; intros acc Hnd Hord; cbn [fold_left map].
  - now rewrite app_nil_r.
  - cbn [map forallb] in Hord. apply andb_prop in Hord. destruct Hord as [Hq Hord].
    assert (Hnotin : ~ In (question q) (map fst acc)).
    { intros Hin. cbn [map] in Hnd. apply NoDup_remove_2 in Hnd.
      apply Hnd. apply in_or_app. now left. }
    rewrite (record_set_new_key acc _ _ Hq Hnotin), IH.
    + now rewrite <- app_assoc.
    + rewrite map_app. cbn [map fst]. rewrite <- app_assoc. exact Hnd.
    + exact Hord.
Qed.

(** The default values of the step-2 form, for any array of questions:
    the answer of every question is the empty string, except that a
    question whose text is [__proto__] gets no entry, and no other key has
    an answer; when the texts are distinct and none of them is [__proto__]
    or an array index, the record lists the questions in their order. *)
Theorem jobSpecificForm_defaultValues_empty (qs : list QuestionConfig) :
  exists d,
    jobSpecificForm_defaultValues (Questions qs) = Some d /\
    (forall k, own_property (questions d) k =
               if array_includes (map question qs) k && negb (k =? "__proto__")%string
               then Some (Some "") else None) /\
    (NoDup (map question qs) ->
     forallb ordinary_key (map question qs) = true ->
     d = empty_answers qs).
Proof.
  eexists. split; [reflexivity | split].
  - intros k. cbn [questions]. now rewrite defaults_fold_lookup.
  - intros Hnd Hord. unfold empty_answers. f_equal.
    now rewrite (defaults_fold_distinct qs [] Hnd Hord).
Qed.

(** The texts of the questions of the source are ordinary keys. *)
Lemma selected_texts_ordinary (job : JobOpening.t) (qs : list QuestionConfig) :
  getJobSpecificQuestions job = Questions qs ->
  forallb ordinary_key (map question qs) = true.
Proof.
  intros H. apply selected_from_all_question_sets in H.
  assert (Hall : forallb (fun l => forallb ordinary_key (map question l))
                   all_question_sets = true) by reflexivity.
  rewrite forallb_forall in Hall. now apply Hall.
Qed.

(** For every job whose component renders, the step-2 form starts with
    exactly the questions of the job, each with the empty answer. *)
Theorem JobApplicationForm_starts_empty (job : JobOpening.t) (s : State) :
  JobApplicationForm job = Some s ->
  exists qs,
    getJobSpecificQuestions job = Questions qs /\
    s = initial_state (empty_answers qs) /\
    render s = Step1 /\ basicInfo s = None /\ cvFile s = None.
Proof.
  unfold JobApplicationForm.
  destruct (getJobSpecificQuestions job) as [qs | |] eqn:E; try discriminate.
  cbn [jobSpecificForm_defaultValues]. intros H. injection H as <-.
  exists qs. split; [reflexivity |].
  assert (Hnd : NoDup (map question qs)).
  { apply selected_from_all_question_sets in E. apply distinct_NoDup.
    assert (Hall : forallb (fun l => distinct (map question l)) all_question_sets = true)
      by reflexivity.
    rewrite forallb_forall in Hall. now apply Hall. }
  rewrite (defaults_fold_distinct qs [] Hnd (selected_texts_ordinary job qs E)).
  repeat split.
Qed.

Lemma JobApplicationForm_starts_empty_witness :
  exists qs,
    getJobSpecificQuestions marketing_internship = Questions qs /\
    initial_state (empty_answers internshipQuestions) = initial_state (empty_answers qs).
Proof.
  destruct (JobApplicationForm_starts_empty marketing_internship
              (initial_state (empty_answers internshipQuestions)) eq_refl)
    as [qs [H1 [H2 _]]].
  exists qs. split; assumption.
Defined.

(** ** The checkbox, click by click *)

(** The values the handler reads back from a field that holds the
    selection [vs]. *)
Lemma current_values_join (vs : list string) :
  Forall plain_option vs ->
  (if (join vs ", " =? "")%string then []
   else filter (fun v => negb (trim v =? "")%string) (split (join vs ", ") ", ")) = vs.
Proof.
  intros Hall. destruct vs as [|v vs]; [reflexivity |].
  assert (Hne : v :: vs <> []) by discriminate.
  pose proof (join_nonempty _ Hne Hall) as Hj.
  apply String.eqb_neq in Hj. rewrite Hj.
  rewrite (split_join _ Hne Hall). now apply filter_plain.
Qed.

Lemma checkbox_clicks_from_empty (clicks : list string) :
  Forall plain_option clicks ->
  checkbox_clicks clicks (Some "") = Some (join (selection_after clicks []) ", ").
Proof. intros H. exact (checkbox_clicks_join clicks [] H (Forall_nil _)). Qed.

Lemma selection_after_plain (clicks vs : list string) :
  Forall plain_option clicks -> Forall plain_option vs ->
  Forall plain_option (selection_after clicks vs).
Proof.
  revert vs. induction clicks as [|o clicks IH]; intros vs Hc Hvs; [exact Hvs |].
  inversion Hc; subst. unfold selection_after. cbn [fold_left].
  apply IH; [assumption | now apply toggle_plain].
Qed.

Lemma array_includes_toggle (vs : list string) (o o' : string) :
  array_includes (toggle vs o) o' =
  if (o' =? o)%string then negb (array_includes vs o) else array_includes vs o'.
Proof.
  apply eq_true_iff_eq. unfold toggle.
  destruct (array_includes vs o) eqn:Hin.
  - rewrite array_includes_In, filter_In, negb_true_iff, String.eqb_neq.
    destruct (String.eqb_spec o' o) as [-> | Hne]; cbn [negb].
    + split; [intros [_ H]; now contradiction H | discriminate].
    + rewrite array_includes_In. tauto.
  - rewrite array_includes_In, in_app_iff. cbn [In].
    destruct (String.eqb_spec o' o) as [-> | Hne]; cbn [negb].
    + tauto.
    + rewrite array_includes_In. split; [intros [H | [H | []]] | tauto].
      * assumption.
      * now contradiction Hne.
Qed.

(** After any clicks on plain options, the check marks on the screen show
    the selection; and one more click on [o] flips the mark of [o] and of
    no other option. *)
Theorem checkbox_click_flips_one_mark (clicks : list string) (o : string) :
  Forall plain_option clicks -> plain_option o ->
  (forall o', isChecked (checkbox_clicks clicks (Some "")) o'
              = array_includes (selection_after clicks []) o') /\
  isChecked (checkbox_clicks (clicks ++ [o]) (Some "")) o
    = negb (isChecked (checkbox_clicks clicks (Some "")) o) /\
  (forall o', o' <> o ->
     isChecked (checkbox_clicks (clicks ++ [o]) (Some "")) o'
     = isChecked (checkbox_clicks clicks (Some "")) o').
Proof.
  intros Hclicks Ho.
  assert (Hshow : forall cs, Forall plain_option cs ->
            forall o', isChecked (checkbox_clicks cs (Some "")) o'
                       = array_includes (selection_after cs []) o').
  { intros cs Hcs o'.
    rewrite (checkbox_clicks_from_empty cs Hcs).
    unfold isChecked.
    now rewrite (current_values_join _ (selection_after_plain cs [] Hcs (Forall_nil _))). }
  assert (Hmore : Forall plain_option (clicks ++ [o])).
  { apply Forall_app. split; [assumption | now constructor]. }
  assert (Hsel : selection_after (clicks ++ [o]) [] = toggle (selection_after clicks []) o).
  { unfold selection_after. now rewrite fold_left_app. }
  split; [exact (Hshow clicks Hclicks) | split].
  - rewrite (Hshow _ Hmore), (Hshow _ Hclicks), Hsel, array_includes_toggle.
    now rewrite String.eqb_refl.
  - intros o' Hne.
    rewrite (Hshow _ Hmore), (Hshow _ Hclicks), Hsel, array_includes_toggle.
    apply String.eqb_neq in Hne. now rewrite Hne.
Qed.

Lemma checkbox_click_flips_one_mark_witness :
  isChecked (checkbox_clicks (["Yes"; "No"] ++ ["Yes"]) (Some "")) "Yes" = false /\
  isChecked (checkbox_clicks (["Yes"; "No"] ++ ["Yes"]) (Some "")) "No" = true.
Proof.
  assert (H : Forall plain_option ["Yes"; "No"]) by (repeat constructor; discriminate).
  assert (Hy : plain_option "Yes") by (split; [reflexivity | discriminate]).
  destruct (checkbox_click_flips_one_mark ["Yes"; "No"] "Yes" H Hy) as [_ [H1 H2]].
  split.
  - exact H1.
  - exact (H2 "No" ltac:(discriminate)).
Defined.

Lemma toggle_NoDup (vs : list string) (o : string) :
  NoDup vs -> NoDup (toggle vs o).
Proof.
  intros Hnd. unfold toggle. destruct (array_includes vs o) eqn:Hin.
  - now apply NoDup_filter.
  - apply NoDup_app; [assumption | repeat constructor; intros [] |].
    intros x Hx [<- | []].
    apply array_includes_In in Hx. now rewrite Hx in Hin.
Qed.

(** After any clicks on plain options the field names no option twice,
    and it is the empty string exactly when nothing is selected. *)
Theorem checkbox_field_has_no_duplicates (clicks : list string) :
  Forall plain_option clicks ->
  exists selected,
    checkbox_clicks clicks (Some "") = Some (join selected ", ") /\
    NoDup selected /\
    (forall o, In o selected -> In o clicks) /\
    (join selected ", " = "" <-> selected = []).
Proof.
  intros Hclicks. exists (selection_after clicks []).
  split; [exact (checkbox_clicks_from_empty clicks Hclicks) | split; [| split]].
  - unfold selection_after.
    assert (G : forall cs vs, NoDup vs -> NoDup (fold_left toggle cs vs)).
    { induction cs as [|c cs IH]; intros vs Hvs; [exact Hvs |].
      cbn [fold_left]. apply IH. now apply toggle_NoDup. }
    apply G. constructor.
  - unfold selection_after.
    assert (G : forall cs vs o, In o (fold_left toggle cs vs) -> In o vs \/ In o cs).
    { induction cs as [|c cs IH]; intros vs o Hin; [now left |].
      cbn [fold_left] in Hin. destruct (IH _ _ Hin) as [H | H].
      - unfold toggle in H. destruct (array_includes vs c).
        + apply filter_In in H. left. tauto.
        + apply in_app_iff in H. destruct H as [H | [<- | []]];
            [now left | right; now left].
      - right. now right. }
    intros o Hin. destruct (G _ _ _ Hin) as [[] | H]. exact H.
  - split.
    + intros Hj. destruct (selection_after clicks []) eqn:E; [reflexivity |].
      exfalso. revert Hj. apply join_nonempty; [discriminate |].
      rewrite <- E. apply selection_after_plain; [assumption | constructor].
    + now intros ->.
Qed.

Lemma checkbox_field_has_no_duplicates_witness :
  exists selected,
    checkbox_clicks ["Yes"; "No"; "Yes"; "Yes"] (Some "") = Some (join selected ", ") /\
    NoDup selected.
Proof.
  assert (H : Forall plain_option ["Yes"; "No"; "Yes"; "Yes"])
    by (repeat constructor; discriminate).
  destruct (checkbox_field_has_no_duplicates _ H) as [sel [H1 [H2 _]]].
  exists sel. split; assumption.
Defined.

(** ** Validation of step 1 *)

Lemma z_string_min_ok (n : nat) (msg p v : string) :
  z_string_min n msg p v = [] <-> n <= String.length v.
Proof.
  unfold z_string_min. destruct (Nat.leb_spec n (String.length v)).
  - tauto.
  - split; [discriminate | lia].
Qed.

Lemma z_enum_ok (allowed : list string) (msg p : string) (v : option string) :
  z_enum allowed msg p v = [] <-> exists s, v = Some s /\ In s allowed.
Proof.
  unfold z_enum. destruct v as [s |].
  - destruct (array_includes allowed s) eqn:E.
    + split; [intros _; exists s; split; [reflexivity | now apply array_includes_In] | reflexivity].
    + split; [discriminate |].
      intros [s' [Hs Hin]]. injection Hs as <-.
      apply array_includes_In in Hin. now rewrite Hin in E.
  - split; [discriminate | intros [s [Hs _]]; discriminate].
Qed.

Lemma app_nil_iff {A : Type} (l l' : list A) :
  l ++ l' = [] <-> l = [] /\ l' = [].
Proof.
  split; [apply app_eq_nil | intros [-> ->]; reflexivity].
Qed.

(** The step-1 schema raises no issue exactly when the first name, the
    last name and the phone number are not empty, the e-mail address passes
    the e-mail check, the travel answer is "yes" or "no", and the motivation
    has at least ten characters; the salaries and the CV play no part. *)
Theorem basicInfoSchema_valid_iff (isEmail : string -> bool) (v : BasicInfoData) :
  basicInfoSchema isEmail v = [] <->
  1 <= String.length (firstName v) /\
  1 <= String.length (lastName v) /\
  isEmail (email v) = true /\
  1 <= String.length (phone v) /\
  (canTravelToNaviMumbai v = Some "yes" \/ canTravelToNaviMumbai v = Some "no") /\
  10 <= String.length (whyMotorOctane v).
Proof.
  unfold basicInfoSchema, z_file_optional, z_string_optional.
  cbn [app].
  rewrite !app_nil_iff, !z_string_min_ok, z_enum_ok.
  unfold z_string_email.
  assert (He : (if isEmail (email v) then [] else
                  [ {| path := "email"; message := "Invalid email address" |} ]) = []
               <-> isEmail (email v) = true).
  { destruct (isEmail (email v)); split; (reflexivity || discriminate). }
  rewrite He.
  assert (Ht : (exists s, canTravelToNaviMumbai v = Some s /\ In s ["yes"; "no"]) <->
               (canTravelToNaviMumbai v = Some "yes" \/ canTravelToNaviMumbai v = Some "no")).
  { split.
    - intros [s [Hs [<- | [<- | []]]]]; tauto.
    - intros [H | H]; eexists; (split; [exact H | cbn; tauto]). }
  rewrite Ht. tauto.
Qed.

Lemma basicForm_handleSubmit_invalid_witness :
  snd (basicForm_handleSubmit sample_isEmail true
         (initial_state (empty_answers socialMediaQuestions))) = [] /\
  currentStep (fst (basicForm_handleSubmit sample_isEmail true
         (initial_state (empty_answers socialMediaQuestions)))) = 1.
Proof.
  destruct (basicForm_handleSubmit_invalid sample_isEmail true
              (initial_state (empty_answers socialMediaQuestions))
              ltac:(discriminate)) as [H1 [H2 _]].
  split; assumption.
Defined.

(** ** Step 2 without basic info *)

(** Submitting step 2 while no basic info is stored sends nothing: the
    toast about the missing information is shown, the dialog goes back to
    step 1, and the answers typed so far stay in the form. *)
Theorem step2_without_basic_info (s : State) :
  basicInfo s = None ->
  snd (jobSpecificForm_handleSubmit s) =
    [toast "Missing Information" "Please complete step 1 first." true] /\
  render (fst (jobSpecificForm_handleSubmit s)) = Step1 /\
  values (jobSpecificForm (fst (jobSpecificForm_handleSubmit s)))
    = values (jobSpecificForm s) /\
  basicForm (fst (jobSpecificForm_handleSubmit s)) = basicForm s /\
  cvFile (fst (jobSpecificForm_handleSubmit s)) = cvFile s.
Proof.
  intros Hb. unfold jobSpecificForm_handleSubmit.
  rewrite jobSpecificSchema_accepts. unfold onJobSpecificSubmit. cbn.
  rewrite Hb. repeat split.
Qed.

Lemma step2_without_basic_info_witness :
  snd (jobSpecificForm_handleSubmit
         (setCurrentStep 2 (initial_state (empty_answers internshipQuestions)))) =
    [toast "Missing Information" "Please complete step 1 first." true].
Proof.
  exact (proj1 (step2_without_basic_info
                  (setCurrentStep 2 (initial_state (empty_answers internshipQuestions)))
                  eq_refl)).
Defined.

(** ** The outcome of the mutation *)

(** A body that is JSON but no object (null, a boolean, a number, a string,
    an array) has neither [details] nor [error]: the raw text is reported. *)
Theorem failure_details_not_an_object (JSON_parse : string -> option json)
  (text : string) (j : json) :
  JSON_parse text = Some j ->
  (forall members, j <> JObject members) ->
  failure_details JSON_parse text = text.
Proof.
  intros Hj Hno. unfold failure_details. rewrite Hj.
  destruct j; try reflexivity.
  now contradiction (Hno members).
Qed.

Lemma failure_details_not_an_object_witness :
  failure_details (fun _ => Some (JArray [JString "busy"])) "[busy]" = "[busy]".
Proof.
  apply (failure_details_not_an_object (fun _ => Some (JArray [JString "busy"]))
           "[busy]" (JArray [JString "busy"]) eq_refl).
  discriminate.
Defined.

(** When the response is ok and its body parses, the mutation succeeds
    whatever the body says: the success toast is shown, the dialog is
    closed, the list of applications is invalidated, and the component is
    back in the state it was first rendered in, with nothing left of what
    was typed or chosen. *)
Theorem successful_submission_resets (JSON_parse : string -> option json)
  (body_used_message : string) (defaults : JobSpecificData)
  (response : Response) (text : string) (result : json) (s : State) :
  ok response = true ->
  body response = Some text ->
  JSON_parse text = Some result ->
  mutationFn JSON_parse body_used_message response = Resolved result /\
  fst (settle JSON_parse body_used_message defaults response s) = initial_state defaults /\
  snd (settle JSON_parse body_used_message defaults response s) =
    [ toast "Application Submitted"
        "Your application has been successfully submitted. We'll be in touch soon!" false;
      onOpenChange false;
      invalidateQueries "/api/applications" ].
Proof.
  intros Hok Hbody Hparse.
  assert (Hm : mutationFn JSON_parse body_used_message response = Resolved result).
  { unfold mutationFn. now rewrite Hok, Hbody, Hparse. }
  unfold settle. rewrite Hm. repeat split.
Qed.

Lemma successful_submission_resets_witness :
  fst (settle (fun _ => Some (JObject [("id", JString "a1")])) "body stream already read"
         (empty_answers socialMediaQuestions)
         {| ok := true; status := 201; body := Some "created" |}
         social_media_step2)
  = initial_state (empty_answers socialMediaQuestions).
Proof.
  exact (proj1 (proj2 (successful_submission_resets
           (fun _ => Some (JObject [("id", JString "a1")])) "body stream already read"
           (empty_answers socialMediaQuestions)
           {| ok := true; status := 201; body := Some "created" |}
           "created" (JObject [("id", JString "a1")]) social_media_step2
           eq_refl eq_refl eq_refl))).
Defined.

(** ** Runs of the component *)

Section RunProperties.

Variable isEmail : string -> bool.
Variable JSON_parse : string -> option json.
Variable body_used_message : string.
Variable jobSpecificQuestions : Selected.
Variable defaults : JobSpecificData.

Lemma render_step2 (s : State) :
  state_ok isEmail s -> render s = Step2 -> exists b, basicInfo s = Some b /\ basicInfoSchema isEmail b = [].
Proof.
  intros [Hstep [Hvalid Hstored]] Hr. unfold render in Hr.
  destruct Hstep as [H1 | H2]; [rewrite H1 in Hr; discriminate |].
  destruct (basicInfo s) as [b |] eqn:Hb.
  - exists b. split; [reflexivity | now apply Hvalid].
  - now contradiction (Hstored H2).
Qed.

Lemma settle_ok (response : Response) (s : State) :
  state_ok isEmail s ->
  state_ok isEmail (fst (settle JSON_parse body_used_message defaults response s)) /\
  Forall (effect_ok isEmail jobSpecificQuestions) (snd (settle JSON_parse body_used_message defaults response s)).
Proof.
  intros Hs. unfold settle.
  destruct (mutationFn JSON_parse body_used_message response).
  - split.
    + repeat split; cbn; [now left | discriminate | discriminate].
    + repeat constructor. cbn. discriminate.
  - split; [exact Hs |]. repeat constructor. cbn. discriminate.
Qed.

Lemma submit_step1_ok (s : State) :
  state_ok isEmail s ->
  state_ok isEmail (fst (basicForm_handleSubmit isEmail (isStepRequired jobSpecificQuestions) s)) /\
  Forall (effect_ok isEmail jobSpecificQuestions)
    (snd (basicForm_handleSubmit isEmail (isStepRequired jobSpecificQuestions) s)).
Proof.
  intros [Hstep [Hvalid Hstored]]. unfold basicForm_handleSubmit.
  destruct (basicInfoSchema isEmail (values (basicForm s))) eqn:Hschema.
  - unfold onBasicInfoSubmit.
    destruct (isStepRequired jobSpecificQuestions) eqn:Hreq; cbn [negb fst snd].
    + split; [| constructor].
      repeat split; cbn.
      * now right.
      * intros b Hb. now injection Hb as <-.
      * discriminate.
    + split.
      * repeat split; cbn.
        -- exact Hstep.
        -- intros b Hb. now injection Hb as <-.
        -- discriminate.
      * constructor; [| constructor]. cbn. split; [exact Hschema |].
        rewrite Hreq. discriminate.
  - split; [| constructor]. repeat split; cbn; assumption.
Qed.

Lemma submit_step2_ok (s : State) :
  state_ok isEmail s -> render s = Step2 ->
  state_ok isEmail (fst (jobSpecificForm_handleSubmit s)) /\
  Forall (effect_ok isEmail jobSpecificQuestions) (snd (jobSpecificForm_handleSubmit s)).
Proof.
  intros Hs Hr. destruct (render_step2 s Hs Hr) as [b [Hb Hschema]].
  destruct Hs as [Hstep [Hvalid Hstored]].
  unfold jobSpecificForm_handleSubmit. rewrite jobSpecificSchema_accepts.
  unfold onJobSpecificSubmit. cbn. rewrite Hb. cbn [fst snd]. split.
  - repeat split; cbn; assumption.
  - repeat constructor; cbn; [exact Hschema | discriminate].
Qed.

Lemma apply_event_ok (e : Event) (s : State) :
  state_ok isEmail s ->
  state_ok isEmail (fst (apply_event isEmail JSON_parse body_used_message jobSpecificQuestions defaults e s)) /\ Forall (effect_ok isEmail jobSpecificQuestions) (snd (apply_event isEmail JSON_parse body_used_message jobSpecificQuestions defaults e s)).
Proof.
  intros Hs. unfold apply_event.
  destruct e; destruct (render s) eqn:Hr;
    try (split; [exact Hs | constructor]);
    try apply settle_ok; try assumption.
  - unfold handleFileUpload. destruct file; (split; [exact Hs | constructor]).
  - now apply submit_step1_ok.
  - now apply submit_step2_ok.
  - destruct Hs as [H1 [H2 H3]]. split; [| constructor].
    repeat split; cbn; [now left | assumption | discriminate].
Qed.

Lemma run_ok (events : list Event) (s : State) :
  state_ok isEmail s ->
  state_ok isEmail (fst (run isEmail JSON_parse body_used_message jobSpecificQuestions defaults
                     events s)) /\
  Forall (effect_ok isEmail jobSpecificQuestions)
    (snd (run isEmail JSON_parse body_used_message jobSpecificQuestions defaults events s)).
Proof.
  revert s. induction events as [|e events IH]; intros s Hs; cbn [run fst snd].
  - split; [exact Hs | constructor].
  - destruct (apply_event_ok e s Hs) as [Hs1 Hfx1].
    destruct (IH _ Hs1) as [Hs2 Hfx2].
    split; [exact Hs2 |]. apply Forall_app. now split.
Qed.

Lemma initial_state_ok (d : JobSpecificData) : state_ok isEmail (initial_state d).
Proof. repeat split; cbn; [now left | discriminate | discriminate]. Qed.

(** Whatever happens to a rendered component, its state stays in order:
    the current step is 1 or 2, the basic info that is stored passed the
    step-1 schema, and while step 2 is on the screen the basic info is
    stored. *)
Theorem run_keeps_the_state_in_order (events : list Event) (d : JobSpecificData) :
  state_ok isEmail
    (fst (run isEmail JSON_parse body_used_message jobSpecificQuestions defaults
            events (initial_state d))).
Proof. exact (proj1 (run_ok events _ (initial_state_ok d))). Qed.

(** Whatever happens to a rendered component, every application it sends
    carries basic data that passed the step-1 schema and, when the job has a
    second step, the answers of step 2; and the toast about missing
    information never comes up. *)
Theorem run_sends_only_complete_applications (events : list Event) (d : JobSpecificData) :
  Forall (effect_ok isEmail jobSpecificQuestions)
    (snd (run isEmail JSON_parse body_used_message jobSpecificQuestions defaults
            events (initial_state d))).
Proof. exact (proj2 (run_ok events _ (initial_state_ok d))). Qed.

End RunProperties.

(** For every job whose component renders, every application that is sent
    in a run holds valid basic data together with the answers of step 2:
    step 1 alone is never sent. *)
Theorem rendered_job_sends_both_steps (isEmail : string -> bool)
  (JSON_parse : string -> option json) (body_used_message : string)
  (job : JobOpening.t) (s0 : State) (events : list Event)
  (basicData : BasicInfoData) (jobSpecificData : option JobSpecificData) :
  JobApplicationForm job = Some s0 ->
  In (mutate basicData jobSpecificData)
     (snd (run isEmail JSON_parse body_used_message (getJobSpecificQuestions job)
             (values (jobSpecificForm s0)) events s0)) ->
  basicInfoSchema isEmail basicData = [] /\
  exists answers, jobSpecificData = Some answers.
Proof.
  intros Hrender Hin.
  pose proof (rendered_component_requires_step2 job s0 Hrender) as Hreq.
  unfold JobApplicationForm in Hrender.
  destruct (jobSpecificForm_defaultValues (getJobSpecificQuestions job)) as [d |];
    [| discriminate].
  injection Hrender as <-.
  pose proof (proj2 (run_ok isEmail JSON_parse body_used_message
                       (getJobSpecificQuestions job)
                       (values (jobSpecificForm (initial_state d)))
                       events _ (initial_state_ok isEmail d))) as Hall.
  rewrite Forall_forall in Hall. specialize (Hall _ Hin). cbn in Hall.
  destruct Hall as [Hvalid Hboth]. split; [exact Hvalid |].
  destruct jobSpecificData as [answers |]; [now exists answers |].
  now contradiction (Hboth Hreq).
Qed.

Lemma rendered_job_sends_both_steps_witness :
  basicInfoSchema sample_isEmail sample_basic = [] /\
  exists answers, Some (empty_answers socialMediaQuestions) = Some answers.
Proof.
  apply (rendered_job_sends_both_steps sample_isEmail sample_JSON_parse
           "body stream already read" social_media_executive
           (initial_state (empty_answers socialMediaQuestions))
           [BasicChange sample_basic; SubmitStep1; SubmitStep2]
           sample_basic (Some (empty_answers socialMediaQuestions))).
  - reflexivity.
  - left. reflexivity.
Defined.

(** ** What is posted *)

(** The fields of the posted form: no name occurs twice; the job id, the
    names, the e-mail address, the phone number, the travel answer and the
    motivation are always there; the CV is there exactly when a file was
    chosen, a salary exactly when it is a non-empty string, and the answers
    exactly when step 2 was submitted. *)
Theorem formData_fields (job : JobOpening.t) (cv_file : option File)
  (basicData : BasicInfoData) (jobSpecificData : option JobSpecificData) :
  let names := map fst (formData job cv_file basicData jobSpecificData) in
  NoDup names /\
  incl ["jobId"; "firstName"; "lastName"; "email"; "phone";
        "canTravelToNaviMumbai"; "whyMotorOctane"] names /\
  (In "cv" names <-> cv_file <> None) /\
  (In "currentSalary" names <->
     exists s, currentSalary basicData = Some s /\ s <> "") /\
  (In "expectedSalary" names <->
     exists s, expectedSalary basicData = Some s /\ s <> "") /\
  (In "jobSpecificAnswers" names <-> jobSpecificData <> None).
Proof.
  cbv zeta. unfold formData, append_if_truthy.
  assert (Hin : forall (x : string) l, In x l <-> array_includes l x = true)
    by (intros; symmetry; apply array_includes_In).
  assert (Hex : forall (o : option string),
            (exists s, o = Some s /\ s <> "") <->
            match o with Some s => (s =? "")%string = false | None => False end).
  { intros [s |]; split.
    - intros [s' [E Hs]]. injection E as <-. now apply String.eqb_neq.
    - intros H. exists s. split; [reflexivity | now apply String.eqb_neq].
    - intros [s [E _]]. discriminate.
    - intros []. }
  rewrite !Hex.
  destruct cv_file as [f |];
    destruct (currentSalary basicData) as [cs |];
    destruct (expectedSalary basicData) as [es |];
    destruct jobSpecificData as [d |];
    try destruct (cs =? "")%string; try destruct (es =? "")%string;
    cbn [app map fst];
    (split; [apply distinct_NoDup; reflexivity |]);
    (split; [intros x Hx; apply Hin; cbn in Hx;
             repeat (destruct Hx as [<- | Hx]; [reflexivity |]); contradiction |]);
    rewrite !Hin; cbn;
    repeat split; intros; try reflexivity; try discriminate; try contradiction;
    try congruence.
Qed.

Lemma valid_travel_answer (isEmail : string -> bool) (v : BasicInfoData) :
  basicInfoSchema isEmail v = [] ->
  canTravelToNaviMumbai v = Some "yes" \/ canTravelToNaviMumbai v = Some "no".
Proof.
  unfold basicInfoSchema. intros H.
  do 5 (apply app_eq_nil in H; destruct H as [_ H]).
  apply app_eq_nil in H. destruct H as [H _].
  apply z_enum_ok in H. destruct H as [s [Hs [<- | [<- | []]]]]; tauto.
Qed.

(** Data that passed the step-1 schema is posted with "yes" or "no" as the
    travel answer, never with the word [undefined]. *)
Theorem formData_travel_answer (isEmail : string -> bool) (job : JobOpening.t)
  (cv_file : option File) (basicData : BasicInfoData)
  (jobSpecificData : option JobSpecificData) :
  basicInfoSchema isEmail basicData = [] ->
  forall v, In ("canTravelToNaviMumbai", fd_text v)
               (formData job cv_file basicData jobSpecificData) ->
  v = "yes" \/ v = "no".
Proof.
  intros Hvalid v Hin.
  pose proof (valid_travel_answer isEmail basicData Hvalid) as Htravel.
  unfold formData, append_if_truthy in Hin.
  repeat (apply in_app_iff in Hin; destruct Hin as [Hin | Hin]).
  - cbn in Hin. repeat (destruct Hin as [Hin | Hin]; [discriminate Hin |]). contradiction.
  - destruct cv_file; cbn in Hin; [destruct Hin as [Hin | []]; discriminate Hin | contradiction].
  - cbn in Hin. destruct Hin as [Hin | []]. injection Hin as <-.
    destruct Htravel as [-> | ->]; tauto.
  - destruct (currentSalary basicData) as [s |]; [destruct (s =? "")%string |];
      cbn in Hin; try contradiction. destruct Hin as [Hin | []]; discriminate Hin.
  - destruct (expectedSalary basicData) as [s |]; [destruct (s =? "")%string |];
      cbn in Hin; try contradiction. destruct Hin as [Hin | []]; discriminate Hin.
  - cbn in Hin. destruct Hin as [Hin | []]; discriminate Hin.
  - destruct jobSpecificData; cbn in Hin; [destruct Hin as [Hin | []]; discriminate Hin | contradiction].
Qed.

Lemma formData_travel_answer_witness :
  "yes" = "yes" \/ "yes" = "no".
Proof.
  apply (formData_travel_answer sample_isEmail social_media_executive None sample_basic None
           eq_refl "yes").
  cbn. tauto.
Defined.

(** For every job whose component renders, the button of step 1 reads
    "Next" (or "Submitting..." while a submission is under way), never
    "Submit Application". *)
Theorem step1_button_reads_next (job : JobOpening.t) (s : State) (isPending : bool) :
  JobApplicationForm job = Some s ->
  step1_button_label isPending (isStepRequired (getJobSpecificQuestions job)) =
  if isPending then "Submitting..." else "Next".
Proof.
  intros H. unfold step1_button_label.
  now rewrite (rendered_component_requires_step2 job s H).
Qed.

Lemma step1_button_reads_next_witness :
  step1_button_label false (isStepRequired (getJobSpecificQuestions marketing_internship))
  = "Next".
Proof.
  exact (step1_button_reads_next marketing_internship
           (initial_state (empty_answers internshipQuestions)) false eq_refl).
Defined.

